(** * A runtime argument type checker for Python callables

    Shallow embedding of [type_checker.py]: the decorator [typecheck], the
    documentation it synthesises and the validating wrapper [check_type] it
    returns, followed by the properties of the wrapper. *)

From Stdlib Require Import Bool Arith Lia List ZArith Permutation.
From Stdlib Require Import Ascii String DecimalString.
Import ListNotations.

Local Open Scope string_scope.
Local Open Scope list_scope.

Set Implicit Arguments.

(* ===================================================================== *)
(** ** Text *)
(* ===================================================================== *)

Module Text.

(** The two characters of the source's string literals that a Rocq string
    literal cannot hold directly. *)
Definition endl : string := String "010"%char EmptyString.
Definition dquote : string := String "034"%char EmptyString.

(** [c in chars], for the character-set argument of [str.strip]. *)
Fixpoint mem (c : ascii) (chars : string) : bool :=
  match chars with
  | EmptyString => false
  | String d rest => Ascii.eqb c d || mem c rest
  end.

(** [str.lstrip(chars)]: drop leading characters that belong to [chars]. *)
Fixpoint lstrip (chars s : string) : string :=
  match s with
  | EmptyString => EmptyString
  | String c rest => if mem c chars then lstrip chars rest else s
  end.

(** [str.rstrip(chars)]: drop trailing characters that belong to [chars]. *)
Fixpoint rstrip (chars s : string) : string :=
  match s with
  | EmptyString => EmptyString
  | String c rest =>
      match rstrip chars rest with
      | EmptyString => if mem c chars then EmptyString else String c EmptyString
      | kept => String c kept
      end
  end.

(** [str.strip(chars)]: [chars] is a set of characters, not a prefix. *)
Definition strip (chars s : string) : string := rstrip chars (lstrip chars s).

(** [sep.join(parts)]. *)
Fixpoint join (sep : string) (parts : list string) : string :=
  match parts with
  | [] => EmptyString
  | [p] => p
  | p :: rest => (p ++ sep ++ join sep rest)%string
  end.

(** [str(n)] for a non-negative integer. *)
Definition str_nat (n : nat) : string := NilZero.string_of_uint (Nat.to_uint n).

(** [str(z)] for an integer. *)
Definition str_Z (z : Z) : string := NilZero.string_of_int (Z.to_int z).

(** [needle in hay], used to say that a message names something. *)
Fixpoint contains (needle hay : string) : bool :=
  String.prefix needle hay ||
  match hay with
  | EmptyString => false
  | String _ rest => contains needle rest
  end.

End Text.

Import Text.

(* ===================================================================== *)
(** ** Python objects seen by the decorator *)
(* ===================================================================== *)

(** Class objects.  [type(x)] yields one of these, and two class objects are
    compared by identity.  Single inheritance is enough for the checker, which
    never looks at the bases. *)
Inductive pyclass : Type :=
| C_object
| C_int
| C_bool
| C_str
| C_NoneType
| C_user (module_ qualname : string) (base : pyclass).

(** [c is d] for class objects. *)
Fixpoint class_eqb (c d : pyclass) : bool :=
  match c, d with
  | C_object, C_object => true
  | C_int, C_int => true
  | C_bool, C_bool => true
  | C_str, C_str => true
  | C_NoneType, C_NoneType => true
  | C_user m q b, C_user m' q' b' => String.eqb m m' && String.eqb q q' && class_eqb b b'
  | _, _ => false
  end.

(** Method resolution order of a class: itself, then its ancestors. *)
Fixpoint mro (c : pyclass) : list pyclass :=
  match c with
  | C_object => [C_object]
  | C_int => [C_int; C_object]
  | C_bool => [C_bool; C_int; C_object]
  | C_str => [C_str; C_object]
  | C_NoneType => [C_NoneType; C_object]
  | C_user _ _ base => c :: mro base
  end.

Definition issubclass (c d : pyclass) : bool := existsb (class_eqb d) (mro c).

Definition strict_subclass (c d : pyclass) : bool :=
  issubclass c d && negb (class_eqb c d).

(** [cls.__module__ + "." + cls.__qualname__], without the module for
    builtins. *)
Definition class_name (c : pyclass) : string :=
  match c with
  | C_object => "object"
  | C_int => "int"
  | C_bool => "bool"
  | C_str => "str"
  | C_NoneType => "NoneType"
  | C_user m q _ => (m ++ "." ++ q)%string
  end.

(** [str(cls)]. *)
Definition str_class (c : pyclass) : string :=
  ("<class '" ++ class_name c ++ "'>")%string.

(** Argument and default values.  [VObject c repr] is an instance of class
    [c] whose [str()] is [repr]. *)
Inductive pyvalue : Type :=
| VNone
| VBool (b : bool)
| VInt (z : Z)
| VStr (s : string)
| VObject (c : pyclass) (repr : string).

(** [type(value)]. *)
Definition type_of (v : pyvalue) : pyclass :=
  match v with
  | VNone => C_NoneType
  | VBool _ => C_bool
  | VInt _ => C_int
  | VStr _ => C_str
  | VObject c _ => c
  end.

(** [str(value)]. *)
Definition str_value (v : pyvalue) : string :=
  match v with
  | VNone => "None"
  | VBool true => "True"
  | VBool false => "False"
  | VInt z => str_Z z
  | VStr s => s
  | VObject _ repr => repr
  end.

(** What an annotation evaluates to.  Only a class object is an instance of
    [type]; a special form of [typing], a string and a union are not. *)
Inductive annotation : Type :=
| AClass (c : pyclass)
| ASpecialForm (repr : string)
| AString (s : string)
| AUnion (members : list pyclass).

(** [sys.version_info[:2]] at or above [(3, 11)], compared as tuples.  The
    module itself only refuses interpreters below [(3, 7)]. *)
Definition Any_is_class (version_info : nat * nat) : bool :=
  let '(major, minor) := version_info in
  Nat.ltb 3 major || (Nat.eqb major 3 && Nat.leb 11 minor).

(** The class that [typing.Any] is from CPython 3.11 on.  Its metaclass
    prints it as [typing.Any], without the [<class ...>] frame that
    [str_class] puts around the name; the decorator passes every such text
    through [get_clear_type_name], which gives [typing.Any] for both. *)
Definition Any_class : pyclass := C_user "typing" "Any" C_object.

(** What the name [typing.Any] evaluates to in an annotation: up to CPython
    3.10 a special form, which is no instance of [type]; from 3.11 on a
    class.  The source has no case of its own for it. *)
Definition typing_Any (version_info : nat * nat) : annotation :=
  if Any_is_class version_info then AClass Any_class else ASpecialForm "typing.Any".

(** [isinstance(annotation, type)]. *)
Definition isinstance_type (a : annotation) : bool :=
  match a with
  | AClass _ => true
  | _ => false
  end.

(** How a union prints one of its members: a class by its name, [NoneType]
    as [None]. *)
Definition union_member_name (c : pyclass) : string :=
  match c with
  | C_NoneType => "None"
  | _ => class_name c
  end.

(** [str(annotation)]. *)
Definition str_annotation (a : annotation) : string :=
  match a with
  | AClass c => str_class c
  | ASpecialForm repr => repr
  | AString s => s
  | AUnion members => join " | " (map union_member_name members)
  end.

(** [inspect.Parameter.kind]. *)
Inductive parameter_kind : Type :=
| POSITIONAL_ONLY
| POSITIONAL_OR_KEYWORD
| VAR_POSITIONAL
| KEYWORD_ONLY
| VAR_KEYWORD.

(** How a kind is formatted inside an f-string. *)
Definition str_kind (k : parameter_kind) : string :=
  match k with
  | POSITIONAL_ONLY => "POSITIONAL_ONLY"
  | POSITIONAL_OR_KEYWORD => "POSITIONAL_OR_KEYWORD"
  | VAR_POSITIONAL => "VAR_POSITIONAL"
  | KEYWORD_ONLY => "KEYWORD_ONLY"
  | VAR_KEYWORD => "VAR_KEYWORD"
  end.

(** [inspect.Parameter]; [None] stands for [Parameter.empty]. *)
Record parameter : Type := {
  p_name : string;
  p_kind : parameter_kind;
  p_annotation : option annotation;
  p_default : option pyvalue
}.

(** Exceptions the module raises. *)
Inductive exn : Type :=
| TypeError (msg : string)
| IndexError (msg : string).

(** Outcome of running Python code: a value, or a raised exception. *)
Inductive result (A : Type) : Type :=
| Return (a : A)
| Raise (e : exn).

Arguments Return {A} a.
Arguments Raise {A} e.

Definition bind {A B : Type} (r : result A) (k : A -> result B) : result B :=
  match r with
  | Return a => k a
  | Raise e => Raise e
  end.

Declare Scope py_scope.
Delimit Scope py_scope with py.
Notation "x <- r ;; k" := (bind r (fun x => k))
  (at level 61, r at next level, right associativity) : py_scope.
Notation "r ;; k" := (bind r (fun _ => k))
  (at level 61, right associativity) : py_scope.
Local Open Scope py_scope.

(** A function object, as far as the decorator reads it: [__name__],
    [__doc__], [__annotations__] (an insertion-ordered dict, which also holds
    the key [return] when the result is annotated), the parameters of
    [inspect.signature] in declaration order, and what calling it does. *)
Record pyfunction : Type := {
  f_name : string;
  f_doc : option string;
  f_annotations : list (string * annotation);
  f_parameters : list parameter;
  f_call : list pyvalue -> list (string * pyvalue) -> result pyvalue
}.

(** What [typecheck] can be applied to. *)
Inductive pyobject : Type :=
| OFunction (f : pyfunction)
| OClass (c : pyclass)
| OBuiltin (name : string)
| OValue (v : pyvalue).

(** [callable(obj)]. *)
Definition callable (o : pyobject) : bool :=
  match o with
  | OFunction _ | OClass _ | OBuiltin _ => true
  | OValue _ => false
  end.

(** [inspect.isfunction(obj)]: true for Python function objects only. *)
Definition isfunction (o : pyobject) : bool :=
  match o with
  | OFunction _ => true
  | _ => false
  end.

(** [str(obj)] for the objects that are not functions. *)
Definition str_object (o : pyobject) : string :=
  match o with
  | OFunction f => ("<function " ++ f_name f ++ ">")%string
  | OClass c => str_class c
  | OBuiltin name => ("<built-in function " ++ name ++ ">")%string
  | OValue v => str_value v
  end.

(* ===================================================================== *)
(** ** The decorator *)
(* ===================================================================== *)

Module TypeChecker.

Definition tab : string := "    ".

(** [get_clear_type_name]: three [str.strip] calls in a row. *)
Definition get_clear_type_name (raw_type_name : string) : string :=
  strip "'>" (strip "'" (strip "<class " raw_type_name)).

(** [str(argument_signature.annotation)] and
    [str(argument_signature.default)]; an absent one is the class
    [inspect._empty]. *)
Definition str_empty : string := "<class 'inspect._empty'>".

Definition str_parameter_annotation (p : parameter) : string :=
  match p_annotation p with
  | Some a => str_annotation a
  | None => str_empty
  end.

Definition str_parameter_default (p : parameter) : string :=
  match p_default p with
  | Some v => str_value v
  | None => str_empty
  end.

(** [get_clear_argument_signature]. *)
Definition get_clear_argument_signature (argument_signature : parameter) : string :=
  let parameter_name := p_name argument_signature in
  let parameter_kind := p_kind argument_signature in
  let parameter_type :=
    get_clear_type_name (str_parameter_annotation argument_signature) in
  let parameter_default :=
    get_clear_type_name (str_parameter_default argument_signature) in
  let parameter_default :=
    if String.eqb parameter_default "inspect._empty" then "?" else parameter_default in
  (str_kind parameter_kind ++ "    " ++ parameter_name ++ " = " ++ parameter_default)%string.

(** The text between [def name] and [: ...]. *)
Definition function_param_signature (func : pyfunction) : string :=
  ("(" ++ endl ++ tab
     ++ join (", " ++ endl ++ tab)
             (map get_clear_argument_signature (f_parameters func))
     ++ endl ++ "  )")%string.

Definition function_signature (func : pyfunction) : string :=
  ("def " ++ f_name func ++ function_param_signature func ++ ": ...")%string.

(** [function_positional_argument_list]: the names of all parameters of the
    signature, whatever their kind. *)
Definition function_positional_argument_list (func : pyfunction) : list string :=
  map p_name (f_parameters func).

(** The description put in place of a missing [__doc__]. *)
Definition no_documentation : string :=
  (endl ++ "  *** There's no documentation for function ***" ++ endl)%string.

(** [__doc__] after the second assignment to it. *)
Definition doc_header (func : pyfunction) : string :=
  let doc :=
    match f_doc func with
    | None => no_documentation
    | Some d => d
    end in
  ("Documentation for function " ++ dquote ++ f_name func ++ dquote ++ ":" ++ endl
     ++ doc ++ endl ++ "Signature:" ++ endl ++ "  " ++ function_signature func
     ++ endl ++ endl ++ "Parameters & Returns:" ++ endl)%string.

(** The loop over [enumerate(type_annotations.items())], appending one line
    per entry to the description built so far. *)
Fixpoint doc_entries (total index : nat) (entries : list (string * annotation))
                     (doc : string) : string :=
  match entries with
  | [] => doc
  | (param_name, param_type) :: rest =>
      let suffix :=
        if Nat.ltb (index + 1) total then ("," ++ endl)%string else endl in
      doc_entries total (S index) rest
        (doc ++ "  " ++ param_name ++ ": "
             ++ get_clear_type_name (str_annotation param_type) ++ suffix)%string
  end.

(** The description the decorator leaves in [func.__doc__]. *)
Definition synthesized_doc (func : pyfunction) : string :=
  let type_annotations := f_annotations func in
  doc_entries (List.length type_annotations) 0 type_annotations (doc_header func).

(** *** The errors, by the place that raises them *)

Definition NotCallableError (func : pyobject) : exn :=
  TypeError ("Not a function: " ++ str_object func).

Definition NoAnnotationsError (func : pyfunction) : exn :=
  TypeError ("Type hint required for function '" ++ f_name func ++ "'").

Definition UnknownKeywordArgumentError (func : pyfunction) (real_param_name : string) : exn :=
  TypeError ("Function '" ++ f_name func ++ "' got an unexpected keyword argument '"
             ++ real_param_name ++ "', perhaps it doesn't have type hint ?").

Definition KeywordTypeMismatchError (real_param_name : string)
           (required_type : annotation) (actual_type : pyclass) : exn :=
  TypeError ("Keyword argument '" ++ real_param_name ++ "' requires type "
             ++ get_clear_type_name (str_annotation required_type) ++ ", "
             ++ "but got " ++ get_clear_type_name (str_class actual_type)).

Definition PositionalAnnotationMissingError (index : nat) (param_name : string) : exn :=
  TypeError ("No type information for positional argument at " ++ str_nat index
             ++ ", possibly name '" ++ param_name ++ "', "
             ++ "consider add a type hint for it").

Definition PositionalTypeMismatchError (index : nat) (param_name : string)
           (required_type : annotation) (actual_type : pyclass) : exn :=
  TypeError ("Positional argument at pos " ++ str_nat index
             ++ ", possibly name '" ++ param_name ++ "', "
             ++ "requires type '" ++ get_clear_type_name (str_annotation required_type) ++ "', "
             ++ "but got '" ++ get_clear_type_name (str_class actual_type) ++ "'").

(** *** The wrapper *)

(** [type_annotations[name]]: the value under the first matching key. *)
Fixpoint lookup (name : string) (d : list (string * annotation)) : option annotation :=
  match d with
  | [] => None
  | (k, a) :: rest => if String.eqb k name then Some a else lookup name rest
  end.

(** [actual_type != required_type], for a [required_type] that is an
    instance of [type]: class objects differ when they are not the same
    object. *)
Definition type_differs (actual_type : pyclass) (required_type : annotation) : bool :=
  match required_type with
  | AClass c => negb (class_eqb actual_type c)
  | _ => true
  end.

(** A [for] loop whose body may raise. *)
Fixpoint for_each {A : Type} (body : A -> result unit) (items : list A) : result unit :=
  match items with
  | [] => Return tt
  | x :: rest => body x ;; for_each body rest
  end.

(** [enumerate(items)], counting from [start]. *)
Fixpoint enumerate_from {A : Type} (start : nat) (items : list A) : list (nat * A) :=
  match items with
  | [] => []
  | x :: rest => (start, x) :: enumerate_from (S start) rest
  end.

Definition enumerate {A : Type} (items : list A) : list (nat * A) :=
  enumerate_from 0 items.

(** Body of the loop over [function_keyword_arguments.items()]. *)
Definition check_keyword (func : pyfunction) (item : string * pyvalue) : result unit :=
  let '(real_param_name, param_value) := item in
  match lookup real_param_name (f_annotations func) with
  | None => Raise (UnknownKeywordArgumentError func real_param_name)
  | Some required_type =>
      let actual_type := type_of param_value in
      if negb (isinstance_type required_type) then Return tt
      else if type_differs actual_type required_type
           then Raise (KeywordTypeMismatchError real_param_name required_type actual_type)
           else Return tt
  end.

(** [get_positioanal_argument_name]: list indexing, which raises
    [IndexError] past the end. *)
Definition get_positioanal_argument_name (func : pyfunction) (index : nat) : result string :=
  match nth_error (function_positional_argument_list func) index with
  | Some name => Return name
  | None => Raise (IndexError "list index out of range")
  end.

(** Body of the loop over [enumerate(function_positional_arguments)]. *)
Definition check_positional (func : pyfunction) (item : nat * pyvalue) : result unit :=
  let '(index, param_value) := item in
  param_name <- get_positioanal_argument_name func index ;;
  match lookup param_name (f_annotations func) with
  | None => Raise (PositionalAnnotationMissingError index param_name)
  | Some required_type =>
      let actual_type := type_of param_value in
      if negb (isinstance_type required_type) then Return tt
      else if type_differs actual_type required_type
           then Raise (PositionalTypeMismatchError index param_name required_type actual_type)
           else Return tt
  end.

(** Everything [check_type] does before it calls the function. *)
Definition validate (func : pyfunction) (args : list pyvalue)
           (kwargs : list (string * pyvalue)) : result unit :=
  let type_annotations := f_annotations func in
  if Nat.eqb (List.length type_annotations) 0 then Raise (NoAnnotationsError func)
  else
    let function_positional_arguments := args in
    let function_keyword_arguments := kwargs in
    for_each (check_keyword func) function_keyword_arguments ;;
    for_each (check_positional func) (enumerate function_positional_arguments).

(** [check_type], called with positional arguments [args] and keyword
    arguments [kwargs]. *)
Definition check_type (func : pyfunction) (args : list pyvalue)
           (kwargs : list (string * pyvalue)) : result pyvalue :=
  validate func args kwargs ;;
  f_call func args kwargs.

(** What [typecheck] returns: [check_type] dressed by [functools.wraps],
    which copies [__name__] and [__doc__] and keeps the function under
    [__wrapped__]. *)
Record wrapper : Type := {
  w_name : string;
  w_doc : option string;
  w_wrapped : pyfunction;
  w_call : list pyvalue -> list (string * pyvalue) -> result pyvalue
}.

(** The function after [func.__doc__] has been reassigned. *)
Definition documented (func : pyfunction) : pyfunction :=
  {| f_name := f_name func;
     f_doc := Some (synthesized_doc func);
     f_annotations := f_annotations func;
     f_parameters := f_parameters func;
     f_call := f_call func |}.

(** [typecheck(func)]. *)
Definition typecheck (func : pyobject) : result wrapper :=
  match func with
  | OFunction f =>
      let f' := documented f in
      Return {| w_name := f_name f';
                w_doc := f_doc f';
                w_wrapped := f';
                w_call := check_type f' |}
  | _ => Raise (NotCallableError func)
  end.

End TypeChecker.

Import TypeChecker.

(** A class name that begins and ends like an identifier: no quote and no
    angle bracket at either end. *)
Definition plain_name (n : string) : bool :=
  match n with
  | EmptyString => false
  | String c _ => negb (mem c "'>") && String.eqb (rstrip "'>" n) n
  end.

(* ===================================================================== *)
(** ** The supplied arguments, in the order the wrapper checks them *)
(* ===================================================================== *)

(** One supplied argument: a keyword argument with its name, or a positional
    argument with its 0-based index. *)
Inductive argument : Type :=
| KeywordArg (name : string) (value : pyvalue)
| PositionalArg (index : nat) (value : pyvalue).

Definition arg_value (a : argument) : pyvalue :=
  match a with
  | KeywordArg _ v => v
  | PositionalArg _ v => v
  end.

Definition with_value (a : argument) (v : pyvalue) : argument :=
  match a with
  | KeywordArg k _ => KeywordArg k v
  | PositionalArg i _ => PositionalArg i v
  end.

(** Keyword arguments first, then positional ones, each group in its own
    order. *)
Definition supplied (args : list pyvalue) (kwargs : list (string * pyvalue)) : list argument :=
  map (fun item => KeywordArg (fst item) (snd item)) kwargs
  ++ map (fun item => PositionalArg (fst item) (snd item)) (enumerate args).

(** The check the wrapper runs for one argument. *)
Definition check_argument (func : pyfunction) (a : argument) : result unit :=
  match a with
  | KeywordArg k v => check_keyword func (k, v)
  | PositionalArg i v => check_positional func (i, v)
  end.

(** The annotation an argument is checked against: found by name for a
    keyword argument, by the name at its index for a positional one. *)
Definition declared_type (func : pyfunction) (a : argument) : option annotation :=
  match a with
  | KeywordArg k _ => lookup k (f_annotations func)
  | PositionalArg i _ =>
      match nth_error (function_positional_argument_list func) i with
      | Some n => lookup n (f_annotations func)
      | None => None
      end
  end.

(** The mismatch error for an argument checked against [required_type]. *)
Definition mismatch_error (func : pyfunction) (a : argument) (required_type : annotation) : exn :=
  match a with
  | KeywordArg k v => KeywordTypeMismatchError k required_type (type_of v)
  | PositionalArg i v =>
      PositionalTypeMismatchError i
        (nth i (function_positional_argument_list func) EmptyString)
        required_type (type_of v)
  end.

Definition is_TypeMismatchError (e : exn) : Prop :=
  (exists k T A, e = KeywordTypeMismatchError k T A) \/
  (exists i n T A, e = PositionalTypeMismatchError i n T A).

(** The keys of [__annotations__] that are parameters: every key but
    [return], which no parameter can be named. *)
Definition annotated_parameters (func : pyfunction) : list string :=
  filter (fun k => negb (String.eqb k "return")) (map fst (f_annotations func)).


(** The ways one argument can be turned down, with the exception raised. *)
Inductive rejection (func : pyfunction) : argument -> exn -> Prop :=
| rej_unknown_keyword k v :
    lookup k (f_annotations func) = None ->
    rejection func (KeywordArg k v) (UnknownKeywordArgumentError func k)
| rej_keyword_mismatch k v T :
    lookup k (f_annotations func) = Some (AClass T) ->
    type_of v <> T ->
    rejection func (KeywordArg k v) (KeywordTypeMismatchError k (AClass T) (type_of v))
| rej_index i v :
    nth_error (function_positional_argument_list func) i = None ->
    rejection func (PositionalArg i v) (IndexError "list index out of range")
| rej_positional_missing i v n :
    nth_error (function_positional_argument_list func) i = Some n ->
    lookup n (f_annotations func) = None ->
    rejection func (PositionalArg i v) (PositionalAnnotationMissingError i n)
| rej_positional_mismatch i v n T :
    nth_error (function_positional_argument_list func) i = Some n ->
    lookup n (f_annotations func) = Some (AClass T) ->
    type_of v <> T ->
    rejection func (PositionalArg i v)
              (PositionalTypeMismatchError i n (AClass T) (type_of v)).

(** [x in str(e)]: the message of the exception names [x]. *)
Definition names (x : string) (e : exn) : bool :=
  match e with
  | TypeError msg => contains x msg
  | IndexError msg => contains x msg
  end.

(** How a message shows a class. *)
Definition shown_type (c : pyclass) : string := get_clear_type_name (str_class c).

(* ===================================================================== *)
(** ** The description, piece by piece *)
(* ===================================================================== *)

(** The description a function had, or the placeholder. *)
Definition original_description (func : pyfunction) : string :=
  match f_doc func with
  | None => no_documentation
  | Some d => d
  end.

(** One entry of the pseudo-declaration: kind, name and the default as the
    decorator shows it. *)
Definition shown_default (p : parameter) : string :=
  let d := get_clear_type_name (str_parameter_default p) in
  if String.eqb d "inspect._empty" then "?" else d.

Definition declaration_entry (p : parameter) : string :=
  (str_kind (p_kind p) ++ "    " ++ p_name p ++ " = " ++ shown_default p)%string.

(** The pseudo-declaration: the entries in declaration order. *)
Definition pseudo_declaration (func : pyfunction) : string :=
  ("def " ++ f_name func ++ "(" ++ endl ++ tab
     ++ join (", " ++ endl ++ tab) (map declaration_entry (f_parameters func))
     ++ endl ++ "  ): ...")%string.

(** The block under [Parameters & Returns:]: one line per entry of
    [__annotations__], in its order, all but the last ending in a comma. *)
Fixpoint annotation_lines (entries : list (string * annotation)) : string :=
  match entries with
  | [] => EmptyString
  | (n, t) :: rest =>
      ("  " ++ n ++ ": " ++ get_clear_type_name (str_annotation t)
         ++ match rest with
            | [] => endl
            | _ => ("," ++ endl)%string
            end
         ++ annotation_lines rest)%string
  end.

(* ===================================================================== *)
(** ** Sample functions *)
(* ===================================================================== *)

Module Samples.

Definition positional_or_keyword (name : string) (a : option annotation)
           (default : option pyvalue) : parameter :=
  {| p_name := name; p_kind := POSITIONAL_OR_KEYWORD;
     p_annotation := a; p_default := default |}.

Definition int_ : annotation := AClass C_int.
Definition str_ : annotation := AClass C_str.

(** What Python itself raises when a call does not fit the signature. *)
Definition bad_call (name : string) : result pyvalue :=
  Raise (TypeError (name ++ "() got arguments that do not fit its signature")).

(** [def _add_with_type_check_int(a: int, b: int) -> int: return a + b] *)
Definition add_int : pyfunction :=
  {| f_name := "_add_with_type_check_int";
     f_doc := None;
     f_annotations := [("a", int_); ("b", int_); ("return", int_)];
     f_parameters := [positional_or_keyword "a" (Some int_) None;
                      positional_or_keyword "b" (Some int_) None];
     f_call := fun args kwargs =>
       match args, kwargs with
       | [VInt a; VInt b], [] => Return (VInt (a + b))
       | [VInt a], [("b", VInt b)] => Return (VInt (a + b))
       | _, _ => bad_call "_add_with_type_check_int"
       end |}.

(** [def add(a: int | str, b: int | str) -> int | str: return a + b] *)
Definition add : pyfunction :=
  let int_or_str := AUnion [C_int; C_str] in
  {| f_name := "add";
     f_doc := None;
     f_annotations := [("a", int_or_str); ("b", int_or_str); ("return", int_or_str)];
     f_parameters := [positional_or_keyword "a" (Some int_or_str) None;
                      positional_or_keyword "b" (Some int_or_str) None];
     f_call := fun args kwargs =>
       match args, kwargs with
       | [VInt a; VInt b], [] => Return (VInt (a + b))
       | [VStr a; VStr b], [] => Return (VStr (a ++ b))
       | [_; _], [] => Raise (TypeError "unsupported operand type(s) for +")
       | _, _ => bad_call "add"
       end |}.

(** [def answer(): return 42] *)
Definition answer : pyfunction :=
  {| f_name := "answer";
     f_doc := None;
     f_annotations := [];
     f_parameters := [];
     f_call := fun args kwargs =>
       match args, kwargs with
       | [], [] => Return (VInt 42)
       | _, _ => bad_call "answer"
       end |}.

(** [def seven() -> int: return 7] *)
Definition seven : pyfunction :=
  {| f_name := "seven";
     f_doc := None;
     f_annotations := [("return", int_)];
     f_parameters := [];
     f_call := fun args kwargs =>
       match args, kwargs with
       | [], [] => Return (VInt 7)
       | _, _ => bad_call "seven"
       end |}.

(** [def echo(a): return a] *)
Definition echo : pyfunction :=
  {| f_name := "echo";
     f_doc := None;
     f_annotations := [];
     f_parameters := [positional_or_keyword "a" None None];
     f_call := fun args kwargs =>
       match args, kwargs with
       | [a], [] => Return a
       | [], [("a", a)] => Return a
       | _, _ => bad_call "echo"
       end |}.

(** [def echo_int(a) -> int: return a] *)
Definition echo_int : pyfunction :=
  {| f_name := "echo_int";
     f_doc := None;
     f_annotations := [("return", int_)];
     f_parameters := [positional_or_keyword "a" None None];
     f_call := fun args kwargs =>
       match args, kwargs with
       | [a], [] => Return a
       | [], [("a", a)] => Return a
       | _, _ => bad_call "echo_int"
       end |}.

(** [def second(a, b: int): return b] *)
Definition second : pyfunction :=
  {| f_name := "second";
     f_doc := None;
     f_annotations := [("b", int_)];
     f_parameters := [positional_or_keyword "a" None None;
                      positional_or_keyword "b" (Some int_) None];
     f_call := fun args kwargs =>
       match args, kwargs with
       | [_; b], [] => Return b
       | _, _ => bad_call "second"
       end |}.

(** [def anything(a: Any): return a], on the interpreter [version_info]. *)
Definition anything (version_info : nat * nat) : pyfunction :=
  {| f_name := "anything";
     f_doc := Some "Return the argument.";
     f_annotations := [("a", typing_Any version_info)];
     f_parameters := [positional_or_keyword "a" (Some (typing_Any version_info)) None];
     f_call := fun args kwargs =>
       match args, kwargs with
       | [a], [] => Return a
       | [], [("a", a)] => Return a
       | _, _ => bad_call "anything"
       end |}.


(** [def greet(a: str = "s"): return a] *)
Definition greet : pyfunction :=
  {| f_name := "greet";
     f_doc := None;
     f_annotations := [("a", str_)];
     f_parameters := [positional_or_keyword "a" (Some str_) (Some (VStr "s"))];
     f_call := fun args kwargs =>
       match args, kwargs with
       | [], [] => Return (VStr "s")
       | [a], [] => Return a
       | [], [("a", a)] => Return a
       | _, _ => bad_call "greet"
       end |}.

End Samples.

(* ===================================================================== *)
(** ** A wrapper seen as a function again *)
(* ===================================================================== *)

(** The wrapper as the decorator reads it when it is handed one:
    [functools.wraps] has copied [__name__], [__doc__] and
    [__annotations__] onto it, [inspect.signature] follows [__wrapped__] to
    the parameters of the function, and calling it runs [check_type]. *)
Definition as_function (w : wrapper) : pyfunction :=
  {| f_name := w_name w;
     f_doc := w_doc w;
     f_annotations := f_annotations (w_wrapped w);
     f_parameters := f_parameters (w_wrapped w);
     f_call := w_call w |}.

(** All characters of [s] belong to [chars]. *)
Fixpoint all_in (chars s : string) : bool :=
  match s with
  | EmptyString => true
  | String c rest => mem c chars && all_in chars rest
  end.

(** An argument is acceptable to the wrapper: its parameter is found and
    annotated, and the annotation is no class or is the class of the
    value. *)
Definition acceptable (func : pyfunction) (a : argument) : Prop :=
  exists ann,
    declared_type func a = Some ann /\
    (isinstance_type ann = false \/ ann = AClass (type_of (arg_value a))).

(** A keyword argument reduced to what the wrapper reads of it. *)
Definition keyword_type (item : string * pyvalue) : string * pyclass :=
  (fst item, type_of (snd item)).

(* ===================================================================== *)
(** ** The script that stacks the decorator on [functools.singledispatch] *)
(* ===================================================================== *)

Module TestScript.

Definition implementation : Type :=
  list pyvalue -> list (string * pyvalue) -> result pyvalue.

(** [registry[cls]], if present. *)
Fixpoint registry_get (cls : pyclass) (registry : list (pyclass * implementation))
  : option implementation :=
  match registry with
  | [] => None
  | (c, impl) :: rest => if class_eqb c cls then Some impl else registry_get cls rest
  end.

(** The implementation of the first class of an MRO that is registered. *)
Fixpoint find_impl (classes : list pyclass) (registry : list (pyclass * implementation))
  : option implementation :=
  match classes with
  | [] => None
  | c :: rest =>
      match registry_get c registry with
      | Some impl => Some impl
      | None => find_impl rest registry
      end
  end.

(** [functools.singledispatch(func)] once [registered] has been added with
    [register]: a function with the name, annotations and signature of
    [func] that calls the implementation chosen by the class of its first
    positional argument, [func] itself being registered for [object]. *)
Definition singledispatch (func : pyfunction)
           (registered : list (pyclass * implementation)) : pyfunction :=
  let registry := registered ++ [(C_object, f_call func)] in
  {| f_name := f_name func;
     f_doc := f_doc func;
     f_annotations := f_annotations func;
     f_parameters := f_parameters func;
     f_call := fun args kw =>
       match args with
       | [] => Raise (TypeError (f_name func ++ " requires at least 1 positional argument"))
       | first :: _ =>
           match find_impl (mro (type_of first)) registry with
           | Some impl => impl args kw
           | None => f_call func args kw
           end
       end |}.

Definition int_or_str : annotation := AUnion [C_int; C_str].

(** [def add_with_type_check(a: int | str, b: int | str) -> int | str: ...] *)
Definition add_with_type_check_generic : pyfunction :=
  {| f_name := "add_with_type_check";
     f_doc := None;
     f_annotations := [("a", int_or_str); ("b", int_or_str); ("return", int_or_str)];
     f_parameters := [Samples.positional_or_keyword "a" (Some int_or_str) None;
                      Samples.positional_or_keyword "b" (Some int_or_str) None];
     f_call := fun args kw =>
       match args, kw with
       | [_; _], [] => Return VNone
       | _, _ => Samples.bad_call "add_with_type_check"
       end |}.

(** [def _add_with_type_check_str(a: str, b: str) -> int: return a + b] *)
Definition add_str : pyfunction :=
  {| f_name := "_add_with_type_check_str";
     f_doc := None;
     f_annotations := [("a", Samples.str_); ("b", Samples.str_); ("return", Samples.int_)];
     f_parameters := [Samples.positional_or_keyword "a" (Some Samples.str_) None;
                      Samples.positional_or_keyword "b" (Some Samples.str_) None];
     f_call := fun args kw =>
       match args, kw with
       | [VStr a; VStr b], [] => Return (VStr (a ++ b))
       | _, _ => Samples.bad_call "_add_with_type_check_str"
       end |}.

(** The name [add_with_type_check] at the end of the script: the decorator
    applied to the dispatcher, with the two decorated implementations
    registered for [int] and [str]. *)
Definition add_with_type_check : implementation :=
  check_type
    (singledispatch add_with_type_check_generic
                    [(C_str, check_type add_str); (C_int, check_type Samples.add_int)]).

End TestScript.
(* ===================================================================== *)
(** ** Facts about text *)
(* ===================================================================== *)

Section TextFacts.

Lemma prefix_refl (s : string) : String.prefix s s = true.
Proof.
  induction s as [|c s IH]; simpl; [reflexivity|].
  destruct (ascii_dec c c) as [_|neq]; [exact IH | now elim neq].
Qed.

Lemma prefix_append (s t : string) : String.prefix s (s ++ t)%string = true.
Proof.
  induction s as [|c s IH]; simpl.
  - now destruct t.
  - destruct (ascii_dec c c) as [_|neq]; [exact IH | now elim neq].
Qed.

Lemma contains_unfold (n h : string) :
  contains n h =
  (String.prefix n h ||
   match h with
   | EmptyString => false
   | String _ rest => contains n rest
   end).
Proof. destruct h; reflexivity. Qed.

Lemma contains_refl (s : string) : contains s s = true.
Proof. rewrite contains_unfold, prefix_refl. reflexivity. Qed.

Lemma contains_head (s t : string) : contains s (s ++ t)%string = true.
Proof. rewrite contains_unfold, prefix_append. reflexivity. Qed.

Lemma contains_skip (n a t : string) :
  contains n t = true -> contains n (a ++ t)%string = true.
Proof.
  intros H. induction a as [|c a IH]; [exact H|].
  change ((String c a ++ t)%string) with (String c (a ++ t)%string).
  rewrite contains_unfold, IH. apply orb_true_r.
Qed.

(** The characters kept at the right end stay when more text follows. *)
Lemma rstrip_append (chars n t : string) :
  n <> EmptyString -> rstrip chars n = n ->
  rstrip chars (n ++ t)%string = (n ++ rstrip chars t)%string.
Proof.
  induction n as [|c n IH]; intros Hne Hfix; [now elim Hne|].
  destruct n as [|d n].
  - simpl in *. destruct (mem c chars); [discriminate|].
    now destruct (rstrip chars t).
  - assert (Hn : rstrip chars (String d n) = String d n).
    { change (rstrip chars (String c (String d n)))
        with (match rstrip chars (String d n) with
              | EmptyString => if mem c chars then EmptyString else String c EmptyString
              | kept => String c kept
              end) in Hfix.
      destruct (rstrip chars (String d n)) eqn:E.
      - destruct (mem c chars); discriminate.
      - now inversion Hfix. }
    specialize (IH ltac:(discriminate) Hn).
    change ((String c (String d n) ++ t)%string)
      with (String c (String d n ++ t)%string).
    change (rstrip chars (String c (String d n ++ t)%string))
      with (match rstrip chars (String d n ++ t)%string with
            | EmptyString => if mem c chars then EmptyString else String c EmptyString
            | kept => String c kept
            end).
    rewrite IH. reflexivity.
Qed.

End TextFacts.

Lemma get_clear_type_name_class (n : string) :
  plain_name n = true ->
  get_clear_type_name ("<class '" ++ n ++ "'>") = n.
Proof.
  unfold plain_name. destruct n as [|c n]; [discriminate|].
  intros H. apply andb_true_iff in H. destruct H as [Hc Hr].
  apply negb_true_iff in Hc. apply String.eqb_eq in Hr.
  assert (Hq : mem c "'" = false).
  { simpl in Hc |- *. apply orb_false_iff in Hc. destruct Hc as [Hc _].
    now rewrite Hc. }
  unfold get_clear_type_name, strip.
  (* first strip: the prefix goes, the closing bracket stays *)
  assert (E1 : rstrip "<class " (lstrip "<class " ("<class '" ++ String c n ++ "'>"))
               = ("'" ++ String c n ++ "'>")%string).
  { change (lstrip "<class " ("<class '" ++ String c n ++ "'>"))
      with ("'" ++ String c n ++ "'>")%string.
    change ("'" ++ String c n ++ "'>")%string
      with (String "'" (String c n ++ "'>")%string).
    (* the text ends with a bracket, which is not in the set *)
    assert (K : forall s, rstrip "<class " (s ++ "'>") = (s ++ "'>")%string).
    { induction s as [|x s IHs]; [reflexivity|].
      change (rstrip "<class " (String x s ++ "'>"))
        with (match rstrip "<class " (s ++ "'>") with
              | EmptyString => if mem x "<class " then EmptyString else String x EmptyString
              | kept => String x kept
              end).
      rewrite IHs. destruct s; reflexivity. }
    exact (K (String "'" (String c n))). }
  rewrite E1.
  assert (E2 : rstrip "'" (lstrip "'" ("'" ++ String c n ++ "'>"))
               = (String c n ++ "'>")%string).
  { change (lstrip "'" ("'" ++ String c n ++ "'>"))
      with (lstrip "'" (String c (n ++ "'>"))).
    change (lstrip "'" (String c (n ++ "'>")))
      with (if mem c "'" then lstrip "'" (n ++ "'>") else String c (n ++ "'>")).
    rewrite Hq.
    assert (K : forall s, rstrip "'" (s ++ "'>") = (s ++ "'>")%string).
    { induction s as [|x s IHs]; [reflexivity|].
      change (rstrip "'" (String x s ++ "'>"))
        with (match rstrip "'" (s ++ "'>") with
              | EmptyString => if mem x "'" then EmptyString else String x EmptyString
              | kept => String x kept
              end).
      rewrite IHs. destruct s; reflexivity. }
    exact (K (String c n)). }
  rewrite E2.
  change (lstrip "'>" (String c n ++ "'>"))
    with (if mem c "'>" then lstrip "'>" (n ++ "'>") else String c (n ++ "'>")).
  rewrite Hc.
  change (String c (n ++ "'>")) with (String c n ++ "'>")%string.
  rewrite rstrip_append by (discriminate || assumption).
  change (rstrip "'>" "'>") with EmptyString.
  clear. induction (String c n) as [|x s IH]; [reflexivity|].
  simpl. now rewrite IH.
Qed.

Lemma get_clear_type_name_str_class (c : pyclass) :
  plain_name (class_name c) = true ->
  get_clear_type_name (str_class c) = class_name c.
Proof. intros H. unfold str_class. now apply get_clear_type_name_class. Qed.

Section ValidationFacts.

Variable func : pyfunction.

Lemma for_each_app (A : Type) (body : A -> result unit) (l1 l2 : list A) :
  for_each body (l1 ++ l2) = (for_each body l1 ;; for_each body l2).
Proof.
  induction l1 as [|x l1 IH]; simpl; [reflexivity|].
  destruct (body x) as [[]|e]; simpl; [exact IH | reflexivity].
Qed.

Lemma for_each_map (A B : Type) (g : A -> B) (body : B -> result unit) (l : list A) :
  for_each body (map g l) = for_each (fun x => body (g x)) l.
Proof.
  induction l as [|x l IH]; simpl; [reflexivity|].
  destruct (body (g x)) as [[]|e]; simpl; [exact IH | reflexivity].
Qed.

Lemma for_each_ext (A : Type) (body body' : A -> result unit) (l : list A) :
  (forall x, body x = body' x) -> for_each body l = for_each body' l.
Proof.
  intros E. induction l as [|x l IH]; simpl; [reflexivity|].
  rewrite E, IH. reflexivity.
Qed.

Lemma for_each_pass (A : Type) (body : A -> result unit) (l : list A) :
  Forall (fun x => body x = Return tt) l <-> for_each body l = Return tt.
Proof.
  induction l as [|x l IH]; simpl.
  - split; [reflexivity | constructor].
  - split.
    + intros H. inversion H as [|? ? Hx Hl]; subst. rewrite Hx. simpl. now apply IH.
    + intros H. destruct (body x) as [[]|e] eqn:E; simpl in H; [|discriminate].
      constructor; [exact E | now apply IH].
Qed.

(** A loop that meets a failing item raises, at that item or before. *)
Lemma for_each_fails (A : Type) (body : A -> result unit) (pre post : list A) (x : A) (e : exn) :
  body x = Raise e -> exists e', for_each body (pre ++ x :: post) = Raise e'.
Proof.
  intros Hx. induction pre as [|y pre IH]; simpl.
  - rewrite Hx. simpl. now exists e.
  - destruct (body y) as [[]|e1]; simpl; [exact IH | now exists e1].
Qed.

(** The first failing item decides the error. *)
Lemma for_each_first_failure (A : Type) (body : A -> result unit)
      (pre post : list A) (x : A) (e : exn) :
  Forall (fun y => body y = Return tt) pre ->
  body x = Raise e ->
  for_each body (pre ++ x :: post) = Raise e.
Proof.
  intros Hpre Hx. rewrite for_each_app.
  apply for_each_pass in Hpre. rewrite Hpre. simpl. now rewrite Hx.
Qed.

Lemma enumerate_from_app (A : Type) (l1 l2 : list A) (start : nat) :
  enumerate_from start (l1 ++ l2)
  = enumerate_from start l1 ++ enumerate_from (start + List.length l1) l2.
Proof.
  revert start. induction l1 as [|x l1 IH]; intros start; simpl.
  - now rewrite Nat.add_0_r.
  - rewrite IH. now rewrite Nat.add_succ_r.
Qed.

(** The two loops of the wrapper are one pass over [supplied]. *)
Lemma checks_supplied (args : list pyvalue) (kwargs : list (string * pyvalue)) :
  (for_each (check_keyword func) kwargs ;;
   for_each (check_positional func) (enumerate args))
  = for_each (check_argument func) (supplied args kwargs).
Proof.
  unfold supplied. rewrite for_each_app, !for_each_map.
  rewrite (for_each_ext (fun x => check_argument func (KeywordArg (fst x) (snd x)))
                        (check_keyword func)) by (now intros [k v]).
  rewrite (for_each_ext (fun x => check_argument func (PositionalArg (fst x) (snd x)))
                        (check_positional func)) by (now intros [i v]).
  reflexivity.
Qed.

Lemma annotations_guard :
  Nat.eqb (List.length (f_annotations func)) 0 = true <-> f_annotations func = [].
Proof.
  destruct (f_annotations func); simpl; split; congruence.
Qed.

Lemma validate_nonempty (args : list pyvalue) (kwargs : list (string * pyvalue)) :
  f_annotations func <> [] ->
  validate func args kwargs = for_each (check_argument func) (supplied args kwargs).
Proof.
  intros Hne. unfold validate.
  destruct (Nat.eqb (List.length (f_annotations func)) 0) eqn:E.
  - apply annotations_guard in E. contradiction.
  - apply checks_supplied.
Qed.

Lemma validate_empty (args : list pyvalue) (kwargs : list (string * pyvalue)) :
  f_annotations func = [] ->
  validate func args kwargs = Raise (NoAnnotationsError func).
Proof.
  intros E. unfold validate. now rewrite E.
Qed.

Lemma lookup_some_nonempty (name : string) (a : annotation) :
  lookup name (f_annotations func) = Some a -> f_annotations func <> [].
Proof. destruct (f_annotations func); [discriminate | discriminate]. Qed.

Lemma declared_nonempty (a : argument) (ann : annotation) :
  declared_type func a = Some ann -> f_annotations func <> [].
Proof.
  destruct a as [k v|i v]; simpl.
  - apply lookup_some_nonempty.
  - destruct (nth_error (function_positional_argument_list func) i);
      [apply lookup_some_nonempty | discriminate].
Qed.

(** What one check does, by the annotation the argument resolves to. *)
Lemma check_argument_class (a : argument) (T : pyclass) :
  declared_type func a = Some (AClass T) ->
  check_argument func a =
  if class_eqb (type_of (arg_value a)) T then Return tt
  else Raise (mismatch_error func a (AClass T)).
Proof.
  destruct a as [k v|i v]; simpl; intros H.
  - rewrite H. simpl. now destruct (class_eqb (type_of v) T).
  - unfold get_positioanal_argument_name.
    destruct (nth_error (function_positional_argument_list func) i) as [n|] eqn:E;
      [|discriminate].
    simpl. rewrite H. simpl.
    rewrite (nth_error_nth _ _ EmptyString E).
    now destruct (class_eqb (type_of v) T).
Qed.

Lemma check_argument_skipped (a : argument) (ann : annotation) :
  declared_type func a = Some ann ->
  isinstance_type ann = false ->
  check_argument func a = Return tt.
Proof.
  destruct a as [k v|i v]; simpl; intros H Hty.
  - rewrite H, Hty. reflexivity.
  - unfold get_positioanal_argument_name.
    destruct (nth_error (function_positional_argument_list func) i) as [n|] eqn:E;
      [|discriminate].
    simpl. rewrite H, Hty. reflexivity.
Qed.

Lemma declared_type_with_value (a : argument) (v : pyvalue) :
  declared_type func (with_value a v) = declared_type func a.
Proof. now destruct a. Qed.

Lemma arg_value_with_value (a : argument) (v : pyvalue) :
  arg_value (with_value a v) = v.
Proof. now destruct a. Qed.

End ValidationFacts.

Lemma class_eqb_refl (c : pyclass) : class_eqb c c = true.
Proof. induction c; simpl; auto. now rewrite !String.eqb_refl. Qed.

Lemma class_eqb_eq (c d : pyclass) : class_eqb c d = true <-> c = d.
Proof.
  split; [|intros ->; apply class_eqb_refl].
  revert d. induction c; destruct d; simpl; try congruence.
  intros H. apply andb_true_iff in H. destruct H as [H Hb].
  apply andb_true_iff in H. destruct H as [Hm Hq].
  apply String.eqb_eq in Hm, Hq. apply IHc in Hb. congruence.
Qed.

Lemma class_eqb_neq (c d : pyclass) : class_eqb c d = false <-> c <> d.
Proof.
  rewrite <- class_eqb_eq. destruct (class_eqb c d); split; congruence.
Qed.

Lemma strict_subclass_differs (c d : pyclass) :
  strict_subclass c d = true -> c <> d.
Proof.
  unfold strict_subclass. intros H. apply andb_true_iff in H.
  destruct H as [_ H]. apply negb_true_iff in H. now apply class_eqb_neq.
Qed.

(* ===================================================================== *)
(** ** Why a call is turned down *)
(* ===================================================================== *)

Section Rejections.

Variable func : pyfunction.

Lemma type_differs_class (A T : pyclass) :
  type_differs A (AClass T) = true <-> A <> T.
Proof.
  simpl. rewrite negb_true_iff. apply class_eqb_neq.
Qed.

(** A check raises exactly in the five ways of [rejection]. *)
Lemma check_argument_rejection (a : argument) (e : exn) :
  check_argument func a = Raise e <-> rejection func a e.
Proof.
  split.
  - destruct a as [k v|i v]; simpl.
    + destruct (lookup k (f_annotations func)) as [[T|r|s|l]|] eqn:E; simpl;
        try discriminate.
      * destruct (class_eqb (type_of v) T) eqn:Ec; simpl; [discriminate|].
        intros H. inversion H; subst. apply rej_keyword_mismatch; [exact E|].
        now apply class_eqb_neq.
      * intros H. inversion H; subst. now apply rej_unknown_keyword.
    + unfold get_positioanal_argument_name.
      destruct (nth_error (function_positional_argument_list func) i) as [n|] eqn:En;
        simpl.
      * destruct (lookup n (f_annotations func)) as [[T|r|s|l]|] eqn:E; simpl;
          try discriminate.
        -- destruct (class_eqb (type_of v) T) eqn:Ec; simpl; [discriminate|].
           intros H. inversion H; subst.
           apply rej_positional_mismatch; [exact En | exact E |].
           now apply class_eqb_neq.
        -- intros H. inversion H; subst. now apply rej_positional_missing.
      * intros H. inversion H; subst. now apply rej_index.
  - intros R. destruct R as [k v E|k v T E Hne|i v En|i v n En E|i v n T En E Hne]; simpl.
    + now rewrite E.
    + rewrite E. simpl. apply class_eqb_neq in Hne. now rewrite Hne.
    + unfold get_positioanal_argument_name. now rewrite En.
    + unfold get_positioanal_argument_name. rewrite En. simpl. now rewrite E.
    + unfold get_positioanal_argument_name. rewrite En. simpl. rewrite E. simpl.
      apply class_eqb_neq in Hne. now rewrite Hne.
Qed.

Lemma for_each_raise_inv (A : Type) (body : A -> result unit) (l : list A) (e : exn) :
  for_each body l = Raise e ->
  exists pre x post,
    l = pre ++ x :: post /\
    Forall (fun y => body y = Return tt) pre /\
    body x = Raise e.
Proof.
  induction l as [|y l IH]; simpl; [discriminate|].
  destruct (body y) as [[]|e1] eqn:E; simpl.
  - intros H. destruct (IH H) as (pre & x & post & -> & Hpre & Hx).
    exists (y :: pre), x, post. repeat split; [constructor; assumption | assumption].
  - intros H. inversion H; subst. exists [], y, l. repeat split; [constructor | assumption].
Qed.

(** Validation raises either at the guard or at the first argument that is
    turned down. *)
Lemma validate_raise_inv (args : list pyvalue) (kwargs : list (string * pyvalue)) (e : exn) :
  validate func args kwargs = Raise e ->
  (f_annotations func = [] /\ e = NoAnnotationsError func) \/
  (f_annotations func <> [] /\
   exists pre a post,
     supplied args kwargs = pre ++ a :: post /\
     Forall (fun b => check_argument func b = Return tt) pre /\
     rejection func a e).
Proof.
  intros H. destruct (f_annotations func) as [|entry rest] eqn:E.
  - left. rewrite validate_empty in H by exact E. inversion H. now split.
  - right. split; [discriminate|].
    rewrite validate_nonempty in H by (rewrite E; discriminate).
    destruct (for_each_raise_inv _ _ H) as (pre & a & post & Hs & Hpre & Ha).
    exists pre, a, post. repeat split; try assumption.
    now apply check_argument_rejection.
Qed.

Lemma validate_passes (args : list pyvalue) (kwargs : list (string * pyvalue)) :
  f_annotations func <> [] ->
  Forall (fun a => check_argument func a = Return tt) (supplied args kwargs) ->
  validate func args kwargs = Return tt.
Proof.
  intros Hne Hall. rewrite validate_nonempty by exact Hne.
  now apply for_each_pass.
Qed.

(** The guard's error is not one an argument check raises. *)
Lemma rejection_not_guard (a : argument) (e : exn) :
  rejection func a e -> e <> NoAnnotationsError func.
Proof.
  intros R. destruct R; discriminate.
Qed.

End Rejections.

(* ===================================================================== *)
(** ** Layout of the description *)
(* ===================================================================== *)

Lemma append_assoc (a b c : string) : ((a ++ b) ++ c = a ++ b ++ c)%string.
Proof. induction a as [|x a IH]; simpl; [reflexivity | now rewrite IH]. Qed.

Lemma append_empty_r (a : string) : (a ++ EmptyString)%string = a.
Proof. induction a as [|x a IH]; simpl; [reflexivity | now rewrite IH]. Qed.

(** The loop appends [annotation_lines] to what it was given. *)
Lemma doc_entries_lines (entries : list (string * annotation)) (index : nat) (doc : string) :
  doc_entries (index + List.length entries) index entries doc
  = (doc ++ annotation_lines entries)%string.
Proof.
  revert index doc. induction entries as [|[n t] rest IH]; intros index doc.
  - simpl. now rewrite append_empty_r.
  - cbn [doc_entries annotation_lines List.length].
    replace (index + S (List.length rest)) with (S index + List.length rest) by lia.
    rewrite IH. destruct rest as [|entry rest'].
    + cbn [List.length]. replace (Nat.ltb (index + 1) (S index + 0)) with false
        by (symmetry; apply Nat.ltb_ge; lia).
      now rewrite !append_assoc.
    + cbn [List.length]. replace (Nat.ltb (index + 1) (S index + S (List.length rest'))) with true
        by (symmetry; apply Nat.ltb_lt; lia).
      now rewrite !append_assoc.
Qed.

Lemma get_clear_argument_signature_entry (p : parameter) :
  get_clear_argument_signature p = declaration_entry p.
Proof. reflexivity. Qed.

(** X1.  The description is the name, the original description or the
    placeholder, the pseudo-declaration and the annotation block, in this
    order. *)
Lemma synthesized_doc_layout (func : pyfunction) :
  synthesized_doc func
  = ("Documentation for function " ++ dquote ++ f_name func ++ dquote ++ ":" ++ endl
       ++ original_description func ++ endl
       ++ "Signature:" ++ endl ++ "  " ++ pseudo_declaration func ++ endl ++ endl
       ++ "Parameters & Returns:" ++ endl
       ++ annotation_lines (f_annotations func))%string.
Proof.
  unfold synthesized_doc.
  change (List.length (f_annotations func)) with (0 + List.length (f_annotations func)).
  rewrite (doc_entries_lines (f_annotations func) 0 (doc_header func)).
  unfold doc_header, function_signature, function_param_signature, pseudo_declaration,
    original_description.
  rewrite (map_ext _ _ get_clear_argument_signature_entry).
  repeat rewrite append_assoc. reflexivity.
Qed.

(** A parameter without a default is shown with a question mark. *)
Lemma shown_default_missing (p : parameter) :
  p_default p = None -> shown_default p = "?".
Proof. unfold shown_default, str_parameter_default. now intros ->. Qed.

(** A class annotation is shown by the name of the class. *)
Lemma annotation_line_class (n : string) (c : pyclass) (rest : list (string * annotation)) :
  plain_name (class_name c) = true ->
  annotation_lines ((n, AClass c) :: rest)
  = ("  " ++ n ++ ": " ++ class_name c
       ++ match rest with [] => endl | _ => ("," ++ endl)%string end
       ++ annotation_lines rest)%string.
Proof.
  intros H. cbn [annotation_lines str_annotation].
  now rewrite get_clear_type_name_str_class.
Qed.

(* ===================================================================== *)
(** ** The wrapper on the sample functions *)
(* ===================================================================== *)

Example add_int_accepts_ints :
  check_type Samples.add_int [VInt 1; VInt 2] [] = Return (VInt 3).
Proof. reflexivity. Qed.

Example add_int_rejects_bool :
  strict_subclass C_bool C_int = true /\
  check_type Samples.add_int [VBool true; VInt 2] []
  = Raise (TypeError "Positional argument at pos 0, possibly name 'a', requires type 'int', but got 'bool'").
Proof. split; reflexivity. Qed.

Example add_accepts_mixed_arguments :
  validate Samples.add [VInt 0; VStr "a"] [] = Return tt /\
  validate Samples.add [VStr "a"; VInt 0] [] = Return tt.
Proof. split; reflexivity. Qed.

Example get_clear_type_name_is_a_character_strip :
  get_clear_type_name "<class 'int'>" = "int" /\
  get_clear_type_name "<class 'inspect._empty'>" = "inspect._empty" /\
  get_clear_type_name "typing.Any" = "typing.Any" /\
  get_clear_type_name "casual" = "u" /\
  get_clear_type_name "s" = EmptyString.
Proof. repeat split. Qed.

(** Whatever the interpreter, the decorator shows [typing.Any] by the same
    text. *)
Lemma typing_Any_shown (version_info : nat * nat) :
  get_clear_type_name (str_annotation (typing_Any version_info)) = "typing.Any".
Proof. unfold typing_Any. now destruct (Any_is_class version_info). Qed.

Example union_with_none_text :
  str_annotation (AUnion [C_int; C_NoneType]) = "int | None".
Proof. reflexivity. Qed.

(* ===================================================================== *)
(** ** Properties of the wrapper *)
(* ===================================================================== *)

Import Samples.

Ltac names_it :=
  unfold names, NoAnnotationsError, UnknownKeywordArgumentError,
    KeywordTypeMismatchError, PositionalAnnotationMissingError,
    PositionalTypeMismatchError, shown_type;
  repeat first [ apply contains_head | apply contains_refl | apply contains_skip ].

Lemma mismatch_error_is_mismatch (func : pyfunction) (a : argument) (T : annotation) :
  is_TypeMismatchError (mismatch_error func a T).
Proof.
  destruct a as [k v|i v]; [left | right]; simpl; eauto.
Qed.

Lemma check_type_raise (func : pyfunction) (args : list pyvalue)
      (kwargs : list (string * pyvalue)) (e : exn) :
  validate func args kwargs = Raise e -> check_type func args kwargs = Raise e.
Proof. unfold check_type. now intros ->. Qed.

Lemma check_type_pass (func : pyfunction) (args : list pyvalue)
      (kwargs : list (string * pyvalue)) :
  validate func args kwargs = Return tt ->
  check_type func args kwargs = f_call func args kwargs.
Proof. unfold check_type. now intros ->. Qed.

(** C1, amended.  An argument whose parameter is annotated with a class [T]
    and whose runtime type is not [T] makes the call fail before the function
    is reached; the error is the type mismatch of that argument when every
    argument checked before it passes.  An instance of a strict subclass of
    [T] is turned down, and a value whose type is exactly [T] passes the
    check. *)
Theorem type_mismatch_rejected
        (func : pyfunction) (args : list pyvalue) (kwargs : list (string * pyvalue))
        (pre post : list argument) (a : argument) (T : pyclass) :
  supplied args kwargs = pre ++ a :: post ->
  declared_type func a = Some (AClass T) ->
  type_of (arg_value a) <> T ->
  (exists e, validate func args kwargs = Raise e /\ check_type func args kwargs = Raise e) /\
  (Forall (fun b => check_argument func b = Return tt) pre ->
   check_type func args kwargs = Raise (mismatch_error func a (AClass T)) /\
   is_TypeMismatchError (mismatch_error func a (AClass T))) /\
  (forall v, strict_subclass (type_of v) T = true ->
             check_argument func (with_value a v)
             = Raise (mismatch_error func (with_value a v) (AClass T))) /\
  (forall v, type_of v = T -> check_argument func (with_value a v) = Return tt).
Proof.
  intros Hs Hd Hne.
  pose proof (declared_nonempty func a Hd) as Hann.
  assert (Ha : check_argument func a = Raise (mismatch_error func a (AClass T))).
  { rewrite (check_argument_class func a Hd).
    apply class_eqb_neq in Hne. now rewrite Hne. }
  repeat split.
  - destruct (for_each_fails (check_argument func) pre post a Ha) as [e He].
    exists e. rewrite <- Hs, <- validate_nonempty in He by exact Hann.
    split; [exact He | now apply check_type_raise].
  - apply check_type_raise. rewrite validate_nonempty, Hs by exact Hann.
    now apply for_each_first_failure.
  - apply mismatch_error_is_mismatch.
  - intros v Hsub.
    rewrite (check_argument_class func (with_value a v) (T := T))
      by (now rewrite declared_type_with_value).
    rewrite arg_value_with_value.
    apply strict_subclass_differs, class_eqb_neq in Hsub. now rewrite Hsub.
  - intros v Hv.
    rewrite (check_argument_class func (with_value a v) (T := T))
      by (now rewrite declared_type_with_value).
    rewrite arg_value_with_value, Hv, class_eqb_refl. reflexivity.
Qed.

Lemma type_mismatch_rejected_witness :
  supplied [VStr "1"; VStr "2"] []
  = [] ++ PositionalArg 0 (VStr "1") :: [PositionalArg 1 (VStr "2")] /\
  declared_type add_int (PositionalArg 0 (VStr "1")) = Some (AClass C_int) /\
  type_of (VStr "1") <> C_int /\
  check_type add_int [VStr "1"; VStr "2"] []
  = Raise (PositionalTypeMismatchError 0 "a" (AClass C_int) C_str) /\
  check_argument add_int (PositionalArg 0 (VBool true))
  = Raise (PositionalTypeMismatchError 0 "a" (AClass C_int) C_bool) /\
  check_argument add_int (PositionalArg 0 (VInt 1)) = Return tt.
Proof.
  assert (Hne : type_of (VStr "1") <> C_int) by discriminate.
  destruct (@type_mismatch_rejected add_int [VStr "1"; VStr "2"] [] []
              [PositionalArg 1 (VStr "2")] (PositionalArg 0 (VStr "1")) C_int
              eq_refl eq_refl Hne) as (_ & Hfirst & Hsub & Heq).
  split; [reflexivity|]. split; [reflexivity|]. split; [exact Hne|].
  split; [exact (proj1 (Hfirst (Forall_nil _)))|].
  split; [exact (Hsub (VBool true) eq_refl) | exact (Heq (VInt 1) eq_refl)].
Defined.

(** C1 as stated fails: in [second(1, "x")] the argument for [b: int] is a
    string, and the call fails with the missing-annotation error of the
    argument before it, which is no type mismatch. *)
Lemma earlier_failure_hides_mismatch :
  nth_error [VInt 1; VStr "x"] 1 = Some (VStr "x") /\
  declared_type second (PositionalArg 1 (VStr "x")) = Some (AClass C_int) /\
  type_of (VStr "x") <> C_int /\
  check_type second [VInt 1; VStr "x"] []
  = Raise (PositionalAnnotationMissingError 0 "a") /\
  ~ is_TypeMismatchError (PositionalAnnotationMissingError 0 "a").
Proof.
  repeat split; try discriminate.
  intros [(k & T & A & H)|(i & n & T & A & H)]; discriminate H.
Qed.

(** C2, amended.  When the function has at least one annotation and every
    supplied argument passes its check, the wrapper calls the function with
    the very arguments it was given and returns what the function returns. *)
Theorem valid_call_delegates
        (func : pyfunction) (args : list pyvalue) (kwargs : list (string * pyvalue)) :
  f_annotations func <> [] ->
  Forall (fun a => check_argument func a = Return tt) (supplied args kwargs) ->
  check_type func args kwargs = f_call func args kwargs /\
  (forall w, typecheck (OFunction func) = Return w ->
             w_call w args kwargs = f_call func args kwargs).
Proof.
  intros Hne Hall.
  pose proof (check_type_pass func args kwargs (validate_passes func args kwargs Hne Hall))
    as H.
  split; [exact H|].
  intros w Hw. inversion Hw; subst. exact H.
Qed.

Lemma valid_call_delegates_witness :
  f_annotations add_int <> [] /\
  Forall (fun a => check_argument add_int a = Return tt) (supplied [VInt 1] [("b", VInt 2)]) /\
  check_type add_int [VInt 1] [("b", VInt 2)] = Return (VInt 3).
Proof.
  assert (Hne : f_annotations add_int <> []) by discriminate.
  assert (Hall : Forall (fun a => check_argument add_int a = Return tt)
                        (supplied [VInt 1] [("b", VInt 2)]))
    by (repeat constructor).
  split; [exact Hne|]. split; [exact Hall|].
  exact (proj1 (@valid_call_delegates add_int [VInt 1] [("b", VInt 2)] Hne Hall)).
Defined.

(** C2 as stated fails: [answer()] supplies no argument at all, so every
    supplied argument passes, yet the wrapper raises instead of calling
    [answer]. *)
Lemma guard_stops_call_without_arguments :
  Forall (fun a => check_argument answer a = Return tt) (supplied [] []) /\
  f_call answer [] [] = Return (VInt 42) /\
  check_type answer [] [] = Raise (NoAnnotationsError answer) /\
  check_type answer [] [] <> f_call answer [] [].
Proof.
  repeat split; [constructor | discriminate].
Qed.

(** C3, amended.  The guard looks at the whole annotation map, the [return]
    entry included: when the map is empty every call fails with the
    no-annotations error, whatever is supplied; when it is not empty, as when
    some parameter is annotated, validation never raises that error. *)
Theorem no_annotations_guard
        (func : pyfunction) (args : list pyvalue) (kwargs : list (string * pyvalue)) :
  (f_annotations func = [] ->
   check_type func args kwargs = Raise (NoAnnotationsError func)) /\
  (f_annotations func <> [] ->
   validate func args kwargs <> Raise (NoAnnotationsError func)) /\
  (annotated_parameters func <> [] -> f_annotations func <> []).
Proof.
  repeat split.
  - intros E. apply check_type_raise. now apply validate_empty.
  - intros Hne H. apply validate_raise_inv in H.
    destruct H as [[E _]|(_ & pre & a & post & _ & _ & R)]; [contradiction|].
    now apply (rejection_not_guard R).
  - unfold annotated_parameters. intros H E. rewrite E in H. now apply H.
Qed.

Lemma no_annotations_guard_witness :
  f_annotations echo = [] /\
  check_type echo [VInt 1; VInt 2] [("k", VNone)] = Raise (NoAnnotationsError echo) /\
  check_type echo [] [] = Raise (NoAnnotationsError echo) /\
  annotated_parameters add_int <> [] /\
  validate add_int [VStr "1"] [] <> Raise (NoAnnotationsError add_int).
Proof.
  assert (Hp : annotated_parameters add_int <> []) by discriminate.
  split; [reflexivity|].
  split; [exact (proj1 (no_annotations_guard echo [VInt 1; VInt 2] [("k", VNone)]) eq_refl)|].
  split; [exact (proj1 (no_annotations_guard echo [] []) eq_refl)|].
  split; [exact Hp|].
  destruct (no_annotations_guard add_int [VStr "1"] []) as (_ & Hv & Hn).
  exact (Hv (Hn Hp)).
Defined.

(** C3 as stated fails: [seven] and [echo_int] annotate no parameter, only
    their result.  Calling [seven()] succeeds, and [echo_int(1)] fails with
    the missing-annotation error of its argument, not with the guard's. *)
Lemma return_annotation_disarms_guard :
  annotated_parameters seven = [] /\
  check_type seven [] [] = Return (VInt 7) /\
  annotated_parameters echo_int = [] /\
  check_type echo_int [VInt 1] [] = Raise (PositionalAnnotationMissingError 0 "a") /\
  PositionalAnnotationMissingError 0 "a" <> NoAnnotationsError echo_int.
Proof.
  repeat split. discriminate.
Qed.

(** C4.  Whether an argument annotated with [typing.Any] is let through
    depends on the interpreter, because the wrapper has no case for it and
    only asks whether the annotation is an instance of [type].  Up to CPython
    3.10 it is not, and the argument passes whatever its value.  From 3.11 on
    it is a class that no value has as its exact type, and every argument is
    turned down with the mismatch error, against the docstring of
    [typecheck], which names [typing.Any] as the way to switch the check
    off. *)
Theorem any_opt_out_by_interpreter
        (version_info : nat * nat) (func : pyfunction) (a : argument) :
  declared_type func a = Some (typing_Any version_info) ->
  (Any_is_class version_info = false ->
   forall v, check_argument func (with_value a v) = Return tt) /\
  (Any_is_class version_info = true ->
   forall v, type_of v <> Any_class ->
             check_argument func (with_value a v)
             = Raise (mismatch_error func (with_value a v) (AClass Any_class)) /\
             forall args kwargs pre post,
               supplied args kwargs = pre ++ with_value a v :: post ->
               exists e, check_type func args kwargs = Raise e).
Proof.
  intros Hd. unfold typing_Any in Hd. split; intros Hv; rewrite Hv in Hd.
  - intros v. apply check_argument_skipped with (ann := ASpecialForm "typing.Any");
      [now rewrite declared_type_with_value | reflexivity].
  - intros v Hne.
    assert (Hr : check_argument func (with_value a v)
                 = Raise (mismatch_error func (with_value a v) (AClass Any_class))).
    { rewrite (check_argument_class func (with_value a v) (T := Any_class))
        by (now rewrite declared_type_with_value).
      rewrite arg_value_with_value. apply class_eqb_neq in Hne. now rewrite Hne. }
    split; [exact Hr|].
    intros args kwargs pre post Hs.
    destruct (for_each_fails (check_argument func) pre post _ Hr) as [e He].
    exists e. apply check_type_raise.
    rewrite validate_nonempty by exact (declared_nonempty func a Hd).
    now rewrite Hs.
Qed.

Lemma any_opt_out_by_interpreter_witness :
  declared_type (anything (3, 11)) (PositionalArg 0 VNone) = Some (typing_Any (3, 11)) /\
  Any_is_class (3, 11) = true /\
  type_of (VInt 1) <> Any_class /\
  check_argument (anything (3, 11)) (PositionalArg 0 (VInt 1))
  = Raise (TypeError "Positional argument at pos 0, possibly name 'a', requires type 'typing.Any', but got 'int'") /\
  declared_type (anything (3, 10)) (PositionalArg 0 VNone) = Some (typing_Any (3, 10)) /\
  Any_is_class (3, 10) = false /\
  check_argument (anything (3, 10)) (PositionalArg 0 (VInt 1)) = Return tt.
Proof.
  assert (Hne : type_of (VInt 1) <> Any_class) by discriminate.
  split; [reflexivity|]. split; [reflexivity|]. split; [exact Hne|].
  split.
  - exact (proj1 (proj2 (@any_opt_out_by_interpreter (3, 11) (anything (3, 11))
                           (PositionalArg 0 VNone) eq_refl) eq_refl (VInt 1) Hne)).
  - split; [reflexivity|]. split; [reflexivity|].
    exact (proj1 (@any_opt_out_by_interpreter (3, 10) (anything (3, 10))
                    (PositionalArg 0 VNone) eq_refl) eq_refl (VInt 1)).
Defined.

(** The call [anything(1)] on CPython 3.11, and on 3.10. *)
Example anything_of_one :
  check_type (anything (3, 11)) [VInt 1] []
  = Raise (TypeError "Positional argument at pos 0, possibly name 'a', requires type 'typing.Any', but got 'int'") /\
  check_type (anything (3, 10)) [VInt 1] [] = Return (VInt 1).
Proof. split; reflexivity. Qed.

(** C5, amended.  When the function has at least one annotation and the
    keyword arguments supplied before it pass, a keyword argument whose name
    is not a key of the annotation map makes the call fail with the
    unknown-keyword error, whose message names the function and the
    keyword. *)
Theorem unknown_keyword_rejected
        (func : pyfunction) (args : list pyvalue)
        (pre post : list (string * pyvalue)) (k : string) (v : pyvalue) :
  f_annotations func <> [] ->
  Forall (fun item => check_keyword func item = Return tt) pre ->
  lookup k (f_annotations func) = None ->
  check_type func args (pre ++ (k, v) :: post)
  = Raise (UnknownKeywordArgumentError func k) /\
  names (f_name func) (UnknownKeywordArgumentError func k) = true /\
  names k (UnknownKeywordArgumentError func k) = true.
Proof.
  intros Hne Hpre Hk. split; [|split; names_it].
  apply check_type_raise. unfold validate.
  destruct (Nat.eqb (List.length (f_annotations func)) 0) eqn:E.
  - apply annotations_guard in E. contradiction.
  - assert (H : for_each (check_keyword func) (pre ++ (k, v) :: post)
                 = Raise (UnknownKeywordArgumentError func k)).
    { apply for_each_first_failure; [exact Hpre|]. simpl. now rewrite Hk. }
    rewrite H. reflexivity.
Qed.

Lemma unknown_keyword_rejected_witness :
  f_annotations greet <> [] /\
  Forall (fun item => check_keyword greet item = Return tt) [("a", VStr "hi")] /\
  lookup "c" (f_annotations greet) = None /\
  check_type greet [] ([("a", VStr "hi")] ++ ("c", VInt 5) :: [])
  = Raise (TypeError "Function 'greet' got an unexpected keyword argument 'c', perhaps it doesn't have type hint ?").
Proof.
  assert (Hne : f_annotations greet <> []) by discriminate.
  assert (Hpre : Forall (fun item => check_keyword greet item = Return tt) [("a", VStr "hi")])
    by (repeat constructor).
  split; [exact Hne|]. split; [exact Hpre|]. split; [reflexivity|].
  exact (proj1 (@unknown_keyword_rejected greet [] [("a", VStr "hi")] [] "c" (VInt 5)
                  Hne Hpre eq_refl)).
Defined.

(** C5 as stated fails: [echo] has no annotation, so [echo(key=5)] fails at
    the guard, with a message that does not name the keyword. *)
Lemma guard_precedes_unknown_keyword :
  lookup "key" (f_annotations echo) = None /\
  check_type echo [] [("key", VInt 5)] = Raise (NoAnnotationsError echo) /\
  NoAnnotationsError echo <> UnknownKeywordArgumentError echo "key" /\
  names "key" (NoAnnotationsError echo) = false.
Proof.
  repeat split. discriminate.
Qed.

(** C6, amended.  When the function has at least one annotation, the keyword
    arguments and the positional arguments before it pass, and its index
    falls on a parameter of the signature that has no annotation, a
    positional argument makes the call fail with the missing-annotation
    error, whose message names the index and the parameter. *)
Theorem unannotated_positional_rejected
        (func : pyfunction) (kwargs : list (string * pyvalue))
        (pre post : list pyvalue) (v : pyvalue) (n : string) :
  f_annotations func <> [] ->
  Forall (fun item => check_keyword func item = Return tt) kwargs ->
  Forall (fun item => check_positional func item = Return tt) (enumerate pre) ->
  nth_error (function_positional_argument_list func) (List.length pre) = Some n ->
  lookup n (f_annotations func) = None ->
  check_type func (pre ++ v :: post) kwargs
  = Raise (PositionalAnnotationMissingError (List.length pre) n) /\
  names (str_nat (List.length pre)) (PositionalAnnotationMissingError (List.length pre) n) = true /\
  names n (PositionalAnnotationMissingError (List.length pre) n) = true.
Proof.
  intros Hne Hkw Hpre Hn Hl. split; [|split; names_it].
  apply check_type_raise. unfold validate.
  destruct (Nat.eqb (List.length (f_annotations func)) 0) eqn:E.
  - apply annotations_guard in E. contradiction.
  - apply for_each_pass in Hkw. rewrite Hkw. simpl.
    unfold enumerate in *. rewrite enumerate_from_app. simpl.
    apply for_each_first_failure; [exact Hpre|].
    simpl. unfold get_positioanal_argument_name. rewrite Hn. simpl. now rewrite Hl.
Qed.

Lemma unannotated_positional_rejected_witness :
  f_annotations second <> [] /\
  Forall (fun item => check_keyword second item = Return tt) [("b", VInt 2)] /\
  Forall (fun item => check_positional second item = Return tt) (enumerate []) /\
  nth_error (function_positional_argument_list second) 0 = Some "a" /\
  lookup "a" (f_annotations second) = None /\
  check_type second ([] ++ VInt 1 :: []) [("b", VInt 2)]
  = Raise (TypeError "No type information for positional argument at 0, possibly name 'a', consider add a type hint for it").
Proof.
  assert (Hne : f_annotations second <> []) by discriminate.
  assert (Hkw : Forall (fun item => check_keyword second item = Return tt) [("b", VInt 2)])
    by (repeat constructor).
  split; [exact Hne|]. split; [exact Hkw|]. split; [constructor|].
  split; [reflexivity|]. split; [reflexivity|].
  exact (proj1 (@unannotated_positional_rejected second [("b", VInt 2)] [] [] (VInt 1) "a"
                  Hne Hkw (Forall_nil _) eq_refl eq_refl)).
Defined.

(** C6 as stated fails: [echo] has no annotation, so [echo(1)], whose
    argument falls on the unannotated parameter [a], fails at the guard. *)
Lemma guard_precedes_missing_annotation :
  nth_error (function_positional_argument_list echo) 0 = Some "a" /\
  lookup "a" (f_annotations echo) = None /\
  check_type echo [VInt 1] [] = Raise (NoAnnotationsError echo) /\
  NoAnnotationsError echo <> PositionalAnnotationMissingError 0 "a".
Proof.
  repeat split. discriminate.
Qed.

(** X10.  A positional argument past the last parameter of the signature is not
    caught by the wrapper's own error: indexing the list of names raises
    [IndexError]. *)
Lemma positional_beyond_signature
      (func : pyfunction) (kwargs : list (string * pyvalue))
      (pre post : list pyvalue) (v : pyvalue) :
  f_annotations func <> [] ->
  Forall (fun item => check_keyword func item = Return tt) kwargs ->
  Forall (fun item => check_positional func item = Return tt) (enumerate pre) ->
  nth_error (function_positional_argument_list func) (List.length pre) = None ->
  check_type func (pre ++ v :: post) kwargs = Raise (IndexError "list index out of range").
Proof.
  intros Hne Hkw Hpre Hn.
  apply check_type_raise. unfold validate.
  destruct (Nat.eqb (List.length (f_annotations func)) 0) eqn:E.
  - apply annotations_guard in E. contradiction.
  - apply for_each_pass in Hkw. rewrite Hkw. simpl.
    unfold enumerate in *. rewrite enumerate_from_app. simpl.
    apply for_each_first_failure; [exact Hpre|].
    simpl. unfold get_positioanal_argument_name. now rewrite Hn.
Qed.

Example third_argument_of_add_int :
  check_type add_int [VInt 1; VInt 2; VInt 3] [] = Raise (IndexError "list index out of range").
Proof. reflexivity. Qed.

(** C7, amended.  [typecheck] fails, with the not-callable error, exactly on
    the objects that are not Python functions, which covers every object that
    cannot be called; on a function it returns the wrapper without raising,
    whatever the annotations are, and the other errors can only come from
    calling the wrapper, which runs [check_type]. *)
Theorem typecheck_rejects_non_functions (o : pyobject) :
  ((exists e, typecheck o = Raise e) <-> isfunction o = false) /\
  (forall e, typecheck o = Raise e -> e = NotCallableError o) /\
  (callable o = false -> typecheck o = Raise (NotCallableError o)) /\
  (forall f, o = OFunction f ->
             exists w, typecheck o = Return w /\
                       w_name w = f_name f /\
                       w_doc w = Some (synthesized_doc f) /\
                       w_call w = check_type f).
Proof.
  split; [|split; [|split]].
  - destruct o; simpl; split; intros H; try reflexivity; try eauto.
    + destruct H as [e H]. discriminate.
    + discriminate.
  - intros e H. destruct o; simpl in H; inversion H; reflexivity.
  - destruct o; simpl; intros H; try discriminate; reflexivity.
  - intros f ->. simpl. eexists. repeat split.
Qed.

Lemma typecheck_rejects_non_functions_witness :
  callable (OValue (VInt 3)) = false /\
  typecheck (OValue (VInt 3)) = Raise (TypeError "Not a function: 3") /\
  (exists w, typecheck (OFunction echo) = Return w /\ w_call w = check_type echo).
Proof.
  split; [reflexivity|]. split.
  - exact (proj1 (proj2 (proj2 (typecheck_rejects_non_functions (OValue (VInt 3))))) eq_refl).
  - destruct (proj2 (proj2 (proj2 (typecheck_rejects_non_functions (OFunction echo))))
                echo eq_refl) as (w & Hw & _ & _ & Hcall).
    exists w. split; [exact Hw | exact Hcall].
Defined.

(** C7 as stated fails: the class [int] and the builtin [len] can be called,
    and [typecheck] turns both down with the not-callable error. *)
Lemma callable_objects_rejected :
  callable (OClass C_int) = true /\
  typecheck (OClass C_int) = Raise (NotCallableError (OClass C_int)) /\
  callable (OBuiltin "len") = true /\
  typecheck (OBuiltin "len") = Raise (TypeError "Not a function: <built-in function len>").
Proof.
  repeat split.
Qed.

(** C8, amended.  An exception raised by validation is the [IndexError] of
    the name list, or one of the wrapper's errors: the no-annotations and
    unknown-keyword messages name the function (and the keyword); the
    missing-annotation message names the index and the parameter; a mismatch
    message names the keyword, or the index and the parameter, with the
    declared and the actual type, each shown by its class name when that name
    is plain. *)
Theorem validation_messages
        (func : pyfunction) (args : list pyvalue) (kwargs : list (string * pyvalue))
        (e : exn) :
  validate func args kwargs = Raise e ->
  (e = IndexError "list index out of range" \/
   (e = NoAnnotationsError func /\ names (f_name func) e = true) \/
   (exists k, e = UnknownKeywordArgumentError func k /\
              names (f_name func) e = true /\ names k e = true) \/
   (exists i n, e = PositionalAnnotationMissingError i n /\
                names (str_nat i) e = true /\ names n e = true) \/
   (exists k T A, e = KeywordTypeMismatchError k (AClass T) A /\
                  names k e = true /\
                  names (shown_type T) e = true /\ names (shown_type A) e = true) \/
   (exists i n T A, e = PositionalTypeMismatchError i n (AClass T) A /\
                    names (str_nat i) e = true /\ names n e = true /\
                    names (shown_type T) e = true /\ names (shown_type A) e = true)) /\
  (forall c, plain_name (class_name c) = true -> shown_type c = class_name c).
Proof.
  intros H. split; [|intros c Hc; now apply get_clear_type_name_str_class].
  apply validate_raise_inv in H.
  destruct H as [[_ ->]|(_ & pre & a & post & _ & _ & R)].
  - right; left. split; [reflexivity | names_it].
  - destruct R as [k v E|k v T E Hne|i v En|i v n En E|i v n T En E Hne].
    + right; right; left. exists k. split; [reflexivity | split; names_it].
    + right; right; right; right; left. exists k, T, (type_of v).
      split; [reflexivity | repeat split; names_it].
    + left. reflexivity.
    + right; right; right; left. exists i, n.
      split; [reflexivity | split; names_it].
    + right; right; right; right; right. exists i, n, T, (type_of v).
      split; [reflexivity | repeat split; names_it].
Qed.

Lemma validation_messages_witness :
  validate add_int [VInt 1] [("b", VStr "2")]
  = Raise (KeywordTypeMismatchError "b" (AClass C_int) C_str) /\
  names "b" (KeywordTypeMismatchError "b" (AClass C_int) C_str) = true /\
  names "int" (KeywordTypeMismatchError "b" (AClass C_int) C_str) = true /\
  names "str" (KeywordTypeMismatchError "b" (AClass C_int) C_str) = true /\
  shown_type C_int = "int".
Proof.
  destruct (@validation_messages add_int [VInt 1] [("b", VStr "2")]
              (KeywordTypeMismatchError "b" (AClass C_int) C_str) eq_refl) as [_ Hshow].
  split; [reflexivity|]. repeat (split; [reflexivity|]).
  exact (Hshow C_int eq_refl).
Defined.

(** C8 as stated fails: the message of the mismatch raised by
    [_add_with_type_check_int("1", "2")] names the position, the parameter
    and both types, and not the function. *)
Lemma mismatch_message_omits_function :
  check_type add_int [VStr "1"; VStr "2"] []
  = Raise (TypeError "Positional argument at pos 0, possibly name 'a', requires type 'int', but got 'str'") /\
  f_name add_int = "_add_with_type_check_int" /\
  names (f_name add_int)
        (TypeError "Positional argument at pos 0, possibly name 'a', requires type 'int', but got 'str'")
  = false.
Proof.
  repeat split.
Qed.

(** C9.  For [def greet(a: str = "s")] the pseudo-declaration shows no
    default for [a]: [get_clear_type_name] strips the characters of
    ["<class "] from both ends of [str(default)], and ["s"] is one of them. *)
Theorem default_lost_in_description :
  p_default (positional_or_keyword "a" (Some str_) (Some (VStr "s"))) = Some (VStr "s") /\
  map get_clear_argument_signature (f_parameters greet) = ["POSITIONAL_OR_KEYWORD    a = "] /\
  synthesized_doc greet
  = ("Documentation for function " ++ dquote ++ "greet" ++ dquote ++ ":" ++ endl
       ++ endl ++ "  *** There's no documentation for function ***" ++ endl ++ endl
       ++ "Signature:" ++ endl
       ++ "  def greet(" ++ endl
       ++ "    POSITIONAL_OR_KEYWORD    a = " ++ endl
       ++ "  ): ..." ++ endl ++ endl
       ++ "Parameters & Returns:" ++ endl
       ++ "  a: str" ++ endl)%string.
Proof.
  repeat split.
Qed.




(* ===================================================================== *)
(** ** Further properties of validation *)
(* ===================================================================== *)

Lemma check_argument_acceptable (func : pyfunction) (a : argument) :
  check_argument func a = Return tt <-> acceptable func a.
Proof.
  unfold acceptable. split.
  - destruct (declared_type func a) as [ann|] eqn:Hd.
    + intros H. exists ann. split; [reflexivity|].
      destruct ann as [T|r|s|l]; try (left; reflexivity).
      right. rewrite (check_argument_class func a Hd) in H.
      destruct (class_eqb (type_of (arg_value a)) T) eqn:E; [|discriminate].
      apply class_eqb_eq in E. now rewrite E.
    + intros H. exfalso. destruct a as [k v|i v]; simpl in *.
      * rewrite Hd in H. discriminate.
      * unfold get_positioanal_argument_name in H.
        destruct (nth_error (function_positional_argument_list func) i); simpl in H;
          [rewrite Hd in H|]; discriminate.
  - intros (ann & Hd & [Hty | ->]).
    + exact (check_argument_skipped func a Hd Hty).
    + rewrite (check_argument_class func a Hd), class_eqb_refl. reflexivity.
Qed.

Lemma check_argument_outcome (func : pyfunction) (a : argument) :
  check_argument func a = Return tt \/ exists e, check_argument func a = Raise e.
Proof.
  destruct (check_argument func a) as [[]|e]; [left; reflexivity | right; now exists e].
Qed.

Lemma Forall_acceptable (func : pyfunction) (l : list argument) :
  Forall (fun a => check_argument func a = Return tt) l <-> Forall (acceptable func) l.
Proof.
  split; apply Forall_impl; intros a; apply check_argument_acceptable.
Qed.

Lemma validate_return_iff
      (func : pyfunction) (args : list pyvalue) (kwargs : list (string * pyvalue)) :
  validate func args kwargs = Return tt <->
  f_annotations func <> [] /\ Forall (acceptable func) (supplied args kwargs).
Proof.
  split.
  - intros H. assert (Hne : f_annotations func <> []).
    { intros E. rewrite (validate_empty func args kwargs E) in H. discriminate. }
    split; [exact Hne|].
    rewrite validate_nonempty in H by exact Hne.
    now apply Forall_acceptable, for_each_pass.
  - intros [Hne Hall]. apply validate_passes; [exact Hne|].
    now apply Forall_acceptable.
Qed.


(** X5.  A call fails validation with [e] exactly when the annotation map is
    empty and [e] is the no-annotations error, or the map is not empty and
    [e] is the error of the first supplied argument that is turned down,
    keyword arguments counting before positional ones. *)
Theorem validation_fails_iff
        (func : pyfunction) (args : list pyvalue) (kwargs : list (string * pyvalue))
        (e : exn) :
  validate func args kwargs = Raise e <->
  (f_annotations func = [] /\ e = NoAnnotationsError func) \/
  (f_annotations func <> [] /\
   exists pre a post,
     supplied args kwargs = pre ++ a :: post /\
     Forall (acceptable func) pre /\
     rejection func a e).
Proof.
  split.
  - intros H. apply validate_raise_inv in H.
    destruct H as [H|(Hne & pre & a & post & Hs & Hpre & R)]; [now left|].
    right. split; [exact Hne|]. exists pre, a, post.
    repeat split; try assumption. now apply Forall_acceptable.
  - intros [[E ->]|(Hne & pre & a & post & Hs & Hpre & R)].
    + now apply validate_empty.
    + rewrite validate_nonempty, Hs by exact Hne.
      apply for_each_first_failure.
      * now apply Forall_acceptable.
      * now apply check_argument_rejection.
Qed.

(** X6.  A call that fails on its keyword arguments alone fails in the same way
    whatever positional arguments come with it. *)
Theorem keyword_failure_comes_first
        (func : pyfunction) (kwargs : list (string * pyvalue)) (e : exn) :
  validate func [] kwargs = Raise e ->
  forall args, validate func args kwargs = Raise e /\ check_type func args kwargs = Raise e.
Proof.
  unfold validate. intros H args.
  assert (Hv : (if Nat.eqb (List.length (f_annotations func)) 0
                then Raise (NoAnnotationsError func)
                else (for_each (check_keyword func) kwargs ;;
                      for_each (check_positional func) (enumerate args))) = Raise e).
  { destruct (Nat.eqb (List.length (f_annotations func)) 0); [exact H|].
    destruct (for_each (check_keyword func) kwargs) as [[]|e1]; simpl in *;
      [discriminate | exact H]. }
  split; [exact Hv | now apply check_type_raise].
Qed.

Lemma keyword_failure_comes_first_witness :
  validate Samples.add_int [] [("b", VStr "2")]
  = Raise (KeywordTypeMismatchError "b" (AClass C_int) C_str) /\
  check_type Samples.add_int [VStr "1"] [("b", VStr "2")]
  = Raise (KeywordTypeMismatchError "b" (AClass C_int) C_str).
Proof.
  split; [reflexivity|].
  exact (proj2 (@keyword_failure_comes_first Samples.add_int [("b", VStr "2")]
                  (KeywordTypeMismatchError "b" (AClass C_int) C_str) eq_refl
                  [VStr "1"])).
Defined.

Lemma check_keyword_type (func : pyfunction) (k : string) (v v' : pyvalue) :
  type_of v = type_of v' -> check_keyword func (k, v) = check_keyword func (k, v').
Proof. simpl. now intros ->. Qed.

Lemma check_positional_type (func : pyfunction) (i : nat) (v v' : pyvalue) :
  type_of v = type_of v' -> check_positional func (i, v) = check_positional func (i, v').
Proof. simpl. now intros ->. Qed.

(** X7.  Validation reads the class of each value and nothing else of it: two
    calls whose arguments have the same classes, under the same keywords,
    have the same outcome. *)
Theorem validation_reads_types_only
        (func : pyfunction) (args args' : list pyvalue)
        (kwargs kwargs' : list (string * pyvalue)) :
  map type_of args = map type_of args' ->
  map keyword_type kwargs = map keyword_type kwargs' ->
  validate func args kwargs = validate func args' kwargs'.
Proof.
  intros Ha Hk. unfold validate.
  assert (Ek : for_each (check_keyword func) kwargs = for_each (check_keyword func) kwargs').
  { clear Ha. revert kwargs' Hk.
    induction kwargs as [|[k v] kwargs IH]; intros [|[k' v'] kwargs'] Hk;
      try discriminate; [reflexivity|].
    inversion Hk as [[Hname Hty Hrest]]. simpl in Hname, Hty. subst k'.
    cbn [for_each]. rewrite (check_keyword_type func k v v' Hty).
    now rewrite (IH kwargs' Hrest). }
  assert (Ep : forall start,
             for_each (check_positional func) (enumerate_from start args)
             = for_each (check_positional func) (enumerate_from start args')).
  { clear Hk Ek. revert args' Ha.
    induction args as [|v args IH]; intros [|v' args'] Ha start;
      try discriminate; [reflexivity|].
    inversion Ha as [[Hty Hrest]].
    cbn [enumerate_from for_each]. rewrite (check_positional_type func start v v' Hty).
    now rewrite (IH args' Hrest (S start)). }
  unfold enumerate. now rewrite Ek, Ep.
Qed.

Lemma validation_reads_types_only_witness :
  map type_of [VInt 1; VInt 2] = map type_of [VInt 30; VInt (-4)] /\
  validate Samples.add_int [VInt 1; VInt 2] [] = validate Samples.add_int [VInt 30; VInt (-4)] [].
Proof.
  split; [reflexivity|].
  exact (@validation_reads_types_only Samples.add_int [VInt 1; VInt 2] [VInt 30; VInt (-4)]
           [] [] eq_refl eq_refl).
Defined.

(** X8.  Whether a call passes does not depend on the order in which its keyword
    arguments are written. *)
Theorem keyword_order_irrelevant
        (func : pyfunction) (args : list pyvalue) (kwargs kwargs' : list (string * pyvalue)) :
  Permutation kwargs kwargs' ->
  (validate func args kwargs = Return tt <-> validate func args kwargs' = Return tt).
Proof.
  intros P. rewrite !validate_return_iff.
  assert (Ps : Permutation (supplied args kwargs) (supplied args kwargs')).
  { unfold supplied. apply Permutation_app_tail. now apply Permutation_map. }
  split; intros [Hne Hall]; (split; [exact Hne|]).
  - exact (Permutation_Forall Ps Hall).
  - exact (Permutation_Forall (Permutation_sym Ps) Hall).
Qed.

Lemma keyword_order_irrelevant_witness :
  Permutation [("a", VInt 1); ("b", VInt 2)] [("b", VInt 2); ("a", VInt 1)] /\
  validate Samples.add_int [] [("b", VInt 2); ("a", VInt 1)] = Return tt.
Proof.
  assert (P : Permutation [("a", VInt 1); ("b", VInt 2)] [("b", VInt 2); ("a", VInt 1)])
    by apply perm_swap.
  split; [exact P|].
  exact (proj1 (@keyword_order_irrelevant Samples.add_int [] _ _ P) eq_refl).
Defined.

(** X9.  A value is judged the same way whether it is passed by keyword or at the
    position of the same parameter; when the parameter has no annotation the
    keyword is reported as unknown and the position as lacking type
    information. *)
Theorem keyword_and_position_agree
        (func : pyfunction) (i : nat) (n : string) (v : pyvalue) :
  nth_error (function_positional_argument_list func) i = Some n ->
  (check_argument func (KeywordArg n v) = Return tt <->
   check_argument func (PositionalArg i v) = Return tt) /\
  (forall T, lookup n (f_annotations func) = Some (AClass T) -> type_of v <> T ->
             check_argument func (KeywordArg n v)
             = Raise (KeywordTypeMismatchError n (AClass T) (type_of v)) /\
             check_argument func (PositionalArg i v)
             = Raise (PositionalTypeMismatchError i n (AClass T) (type_of v))) /\
  (lookup n (f_annotations func) = None ->
   check_argument func (KeywordArg n v) = Raise (UnknownKeywordArgumentError func n) /\
   check_argument func (PositionalArg i v) = Raise (PositionalAnnotationMissingError i n)).
Proof.
  intros Hn.
  assert (Hd : declared_type func (PositionalArg i v) = declared_type func (KeywordArg n v))
    by (simpl; now rewrite Hn).
  split; [|split].
  - rewrite !check_argument_acceptable. unfold acceptable. rewrite Hd. reflexivity.
  - intros T HT Hne. split; apply check_argument_rejection.
    + now apply rej_keyword_mismatch.
    + now apply rej_positional_mismatch.
  - intros HN. split; apply check_argument_rejection.
    + now apply rej_unknown_keyword.
    + now apply rej_positional_missing.
Qed.

Lemma keyword_and_position_agree_witness :
  nth_error (function_positional_argument_list Samples.add_int) 1 = Some "b" /\
  check_argument Samples.add_int (KeywordArg "b" (VStr "2"))
  = Raise (KeywordTypeMismatchError "b" (AClass C_int) C_str) /\
  check_argument Samples.add_int (PositionalArg 1 (VStr "2"))
  = Raise (PositionalTypeMismatchError 1 "b" (AClass C_int) C_str).
Proof.
  assert (Hne : type_of (VStr "2") <> C_int) by discriminate.
  split; [reflexivity|].
  exact (proj1 (proj2 (@keyword_and_position_agree Samples.add_int 1 "b" (VStr "2") eq_refl))
           C_int eq_refl Hne).
Defined.

(* ===================================================================== *)
(** ** Positional arguments and the signature *)
(* ===================================================================== *)

Lemma in_enumerate_from (A : Type) (l : list A) (start i : nat) (v : A) :
  In (i, v) (enumerate_from start l) <-> start <= i /\ nth_error l (i - start) = Some v.
Proof.
  revert start. induction l as [|x l IH]; intros start; simpl.
  - split; [contradiction|]. intros [_ H]. destruct (i - start); discriminate.
  - rewrite IH. split.
    + intros [H|[Hle H]].
      * inversion H; subst. split; [lia|]. now rewrite Nat.sub_diag.
      * split; [lia|]. replace (i - start) with (S (i - S start)) by lia. exact H.
    + intros [Hle H]. destruct (i - start) as [|k] eqn:E.
      * left. inversion H; subst. f_equal. lia.
      * right. split; [lia|]. replace (i - S start) with k by lia. exact H.
Qed.

Lemma in_supplied_positional (args : list pyvalue) (kwargs : list (string * pyvalue))
      (i : nat) (v : pyvalue) :
  In (PositionalArg i v) (supplied args kwargs) <-> nth_error args i = Some v.
Proof.
  unfold supplied, enumerate. rewrite in_app_iff, !in_map_iff. split.
  - intros [([k w] & H & _)|([j w] & H & Hin)]; [discriminate|].
    simpl in H. inversion H; subst.
    apply in_enumerate_from in Hin. destruct Hin as [_ Hin].
    now rewrite Nat.sub_0_r in Hin.
  - intros H. right. exists (i, v). split; [reflexivity|].
    apply in_enumerate_from. split; [lia|]. now rewrite Nat.sub_0_r.
Qed.

Lemma in_supplied_only_positional (args : list pyvalue) (a : argument) :
  In a (supplied args []) -> exists i v, a = PositionalArg i v /\ nth_error args i = Some v.
Proof.
  intros H. destruct a as [k v|i v].
  - unfold supplied in H. simpl in H. apply in_map_iff in H.
    destruct H as ([j w] & H & _). discriminate.
  - exists i, v. split; [reflexivity|]. now apply (in_supplied_positional args []).
Qed.

Lemma names_length (func : pyfunction) :
  List.length (function_positional_argument_list func) = List.length (f_parameters func).
Proof. unfold function_positional_argument_list. apply length_map. Qed.

(** X11.  A call with more positional arguments than the signature has parameters
    never reaches the function, and the [IndexError] of the name list is
    raised by no other call. *)
Theorem too_many_positional_arguments
        (func : pyfunction) (args : list pyvalue) (kwargs : list (string * pyvalue)) :
  (List.length (f_parameters func) < List.length args ->
   exists e, validate func args kwargs = Raise e /\ check_type func args kwargs = Raise e) /\
  (forall msg, validate func args kwargs = Raise (IndexError msg) ->
               List.length (f_parameters func) < List.length args /\
               msg = "list index out of range").
Proof.
  split.
  - intros Hlen.
    destruct (f_annotations func) as [|entry rest] eqn:E.
    + exists (NoAnnotationsError func).
      pose proof (validate_empty func args kwargs E) as H.
      split; [exact H | now apply check_type_raise].
    + destruct (nth_error args (List.length (f_parameters func))) as [v|] eqn:Hv;
        [|apply nth_error_None in Hv; lia].
      apply (in_supplied_positional args kwargs) in Hv.
      apply in_split in Hv. destruct Hv as (pre & post & Hs).
      assert (Hr : check_argument func (PositionalArg (List.length (f_parameters func)) v)
                   = Raise (IndexError "list index out of range")).
      { apply check_argument_rejection, rej_index.
        apply nth_error_None. rewrite names_length. lia. }
      destruct (for_each_fails (check_argument func) pre post _ Hr) as [e He].
      exists e. rewrite <- Hs, <- validate_nonempty in He by (rewrite E; discriminate).
      split; [exact He | now apply check_type_raise].
  - intros msg H. apply validate_raise_inv in H.
    destruct H as [[_ H]|(_ & pre & a & post & Hs & _ & R)]; [discriminate|].
    inversion R; subst.
    assert (Hin : In (PositionalArg i v) (supplied args kwargs))
      by (rewrite Hs; apply in_elt).
    apply in_supplied_positional in Hin.
    split; [|reflexivity].
    match goal with
    | Hn : nth_error (function_positional_argument_list func) i = None |- _ =>
        apply nth_error_None in Hn; rewrite names_length in Hn
    end.
    assert (i < List.length args) by (apply nth_error_Some; congruence).
    lia.
Qed.

Lemma too_many_positional_arguments_witness :
  List.length (f_parameters Samples.add_int) < List.length [VInt 1; VInt 2; VInt 3] /\
  (exists e, check_type Samples.add_int [VInt 1; VInt 2; VInt 3] [] = Raise e).
Proof.
  assert (H : List.length (f_parameters Samples.add_int) < List.length [VInt 1; VInt 2; VInt 3])
    by (simpl; lia).
  split; [exact H|].
  destruct (proj1 (too_many_positional_arguments Samples.add_int [VInt 1; VInt 2; VInt 3] []) H)
    as (e & _ & He).
  now exists e.
Defined.

Lemma positional_beyond_signature_witness :
  f_annotations Samples.add_int <> [] /\
  Forall (fun item => check_positional Samples.add_int item = Return tt)
         (enumerate [VInt 1; VInt 2]) /\
  nth_error (function_positional_argument_list Samples.add_int) (List.length [VInt 1; VInt 2])
  = None /\
  check_type Samples.add_int ([VInt 1; VInt 2] ++ VInt 3 :: [VInt 4]) []
  = Raise (IndexError "list index out of range").
Proof.
  assert (Hne : f_annotations Samples.add_int <> []) by discriminate.
  assert (Hpre : Forall (fun item => check_positional Samples.add_int item = Return tt)
                        (enumerate [VInt 1; VInt 2]))
    by (repeat constructor).
  split; [exact Hne|]. split; [exact Hpre|]. split; [reflexivity|].
  exact (@positional_beyond_signature Samples.add_int [] [VInt 1; VInt 2] [VInt 4] (VInt 3)
           Hne (Forall_nil _) Hpre eq_refl).
Defined.

(** X12.  For a function whose parameters are all annotated with classes, a call
    with positional arguments only passes exactly when it has no more
    arguments than there are parameters and each argument has exactly the
    class declared at its position. *)
Theorem positional_call_accepted_iff
        (func : pyfunction) (classes : list pyclass) (args : list pyvalue) :
  f_annotations func <> [] ->
  List.length classes = List.length (f_parameters func) ->
  (forall i n T,
      nth_error (function_positional_argument_list func) i = Some n ->
      nth_error classes i = Some T ->
      lookup n (f_annotations func) = Some (AClass T)) ->
  (validate func args [] = Return tt <->
   List.length args <= List.length classes /\
   forall i v T, nth_error args i = Some v -> nth_error classes i = Some T -> type_of v = T).
Proof.
  intros Hne Hlen Hann. rewrite validate_return_iff, Forall_forall.
  assert (Hacc : forall i v, nth_error args i = Some v ->
                             acceptable func (PositionalArg i v) ->
                             i < List.length classes /\
                             forall T, nth_error classes i = Some T -> type_of v = T).
  { intros i v Hv (ann & Hd & Hok). simpl in Hd.
    destruct (nth_error (function_positional_argument_list func) i) as [n|] eqn:Hn;
      [|discriminate].
    assert (Hi : i < List.length classes).
    { rewrite Hlen, <- names_length. apply nth_error_Some. congruence. }
    split; [exact Hi|]. intros T HT.
    rewrite (Hann i n T Hn HT) in Hd. inversion Hd; subst ann.
    destruct Hok as [Hok|Hok]; [discriminate | now inversion Hok]. }
  split.
  - intros [_ Hall]. split.
    + destruct (le_lt_dec (List.length args) (List.length classes)) as [Hle|Hgt];
        [exact Hle|].
      destruct (nth_error args (List.length classes)) as [v|] eqn:Hv;
        [|apply nth_error_None in Hv; lia].
      pose proof (Hall _ (proj2 (in_supplied_positional args [] _ v) Hv)) as Ha.
      destruct (Hacc _ v Hv Ha) as [Hi _]. lia.
    + intros i v T Hv HT.
      pose proof (Hall _ (proj2 (in_supplied_positional args [] i v) Hv)) as Ha.
      exact (proj2 (Hacc i v Hv Ha) T HT).
  - intros [Hle Hty]. split; [exact Hne|].
    intros a Hin. apply in_supplied_only_positional in Hin.
    destruct Hin as (i & v & -> & Hv).
    assert (Hi : i < List.length classes).
    { assert (i < List.length args) by (apply nth_error_Some; congruence). lia. }
    destruct (nth_error classes i) as [T|] eqn:HT; [|apply nth_error_None in HT; lia].
    destruct (nth_error (function_positional_argument_list func) i) as [n|] eqn:Hn.
    + exists (AClass T). split.
      * simpl. rewrite Hn. exact (Hann i n T Hn HT).
      * right. simpl. now rewrite (Hty i v T Hv HT).
    + apply nth_error_None in Hn. rewrite names_length in Hn. lia.
Qed.

Lemma positional_call_accepted_iff_witness :
  f_annotations Samples.add_int <> [] /\
  List.length [C_int; C_int] = List.length (f_parameters Samples.add_int) /\
  validate Samples.add_int [VInt 5] [] = Return tt.
Proof.
  assert (Hne : f_annotations Samples.add_int <> []) by discriminate.
  assert (Hann : forall i n T,
             nth_error (function_positional_argument_list Samples.add_int) i = Some n ->
             nth_error [C_int; C_int] i = Some T ->
             lookup n (f_annotations Samples.add_int) = Some (AClass T)).
  { intros [|[|i]] n T Hn HT; simpl in Hn, HT.
    - inversion Hn; inversion HT; reflexivity.
    - inversion Hn; inversion HT; reflexivity.
    - destruct i; discriminate. }
  split; [exact Hne|]. split; [reflexivity|].
  apply (proj2 (@positional_call_accepted_iff Samples.add_int [C_int; C_int] [VInt 5]
                  Hne eq_refl Hann)).
  split; [simpl; lia|].
  intros [|[|i]] v T Hv HT; simpl in Hv, HT.
  - inversion Hv; inversion HT; reflexivity.
  - discriminate.
  - destruct i; discriminate.
Defined.

(** X13.  The errors of the module are all [TypeError]s, and their messages tell
    the six raising places apart whatever names and types they carry. *)
Theorem error_kinds_are_distinct
        (o : pyobject) (f g h : pyfunction) (k k' n n' : string) (i i' : nat)
        (T T' : annotation) (A A' : pyclass) :
  let e1 := NotCallableError o in
  let e2 := NoAnnotationsError f in
  let e3 := UnknownKeywordArgumentError g k in
  let e4 := KeywordTypeMismatchError k' T A in
  let e5 := PositionalAnnotationMissingError i n in
  let e6 := PositionalTypeMismatchError i' n' T' A' in
  (e1 <> e2 /\ e1 <> e3 /\ e1 <> e4 /\ e1 <> e5 /\ e1 <> e6) /\
  (e2 <> e3 /\ e2 <> e4 /\ e2 <> e5 /\ e2 <> e6) /\
  (e3 <> e4 /\ e3 <> e5 /\ e3 <> e6) /\
  (e4 <> e5 /\ e4 <> e6) /\
  e5 <> e6 /\
  (forall e, In e [e1; e2; e3; e4; e5; e6] -> exists msg, e = TypeError msg).
Proof.
  cbv zeta. repeat split; try discriminate.
  intros e He. simpl in He.
  repeat (destruct He as [<-|He]; [eexists; reflexivity|]). contradiction.
Qed.

(** X17.  A call without any argument passes validation exactly when the
    function has an annotation, and is then handed to the function as it is:
    defaults are never checked against the annotations. *)
Theorem call_without_arguments (func : pyfunction) :
  (validate func [] [] = Return tt <-> f_annotations func <> []) /\
  (f_annotations func <> [] -> check_type func [] [] = f_call func [] []) /\
  (f_annotations func = [] -> check_type func [] [] = Raise (NoAnnotationsError func)).
Proof.
  split; [|split].
  - rewrite validate_return_iff. split; [now intros [H _]|].
    intros H. split; [exact H | constructor].
  - intros H. apply check_type_pass, validate_return_iff. split; [exact H | constructor].
  - intros H. now apply check_type_raise, validate_empty.
Qed.

Lemma call_without_arguments_witness :
  f_annotations Samples.greet <> [] /\
  check_type Samples.greet [] [] = Return (VStr "s").
Proof.
  assert (Hne : f_annotations Samples.greet <> []) by discriminate.
  split; [exact Hne|].
  exact (proj1 (proj2 (call_without_arguments Samples.greet)) Hne).
Defined.

(* ===================================================================== *)
(** ** What [get_clear_type_name] removes *)
(* ===================================================================== *)

Lemma all_in_append (chars a b : string) :
  all_in chars (a ++ b)%string = all_in chars a && all_in chars b.
Proof.
  induction a as [|c a IH]; simpl; [reflexivity|].
  rewrite IH. apply andb_assoc.
Qed.

Lemma all_in_weaken (small big a : string) :
  (forall c, mem c small = true -> mem c big = true) ->
  all_in small a = true -> all_in big a = true.
Proof.
  intros Hsub. induction a as [|c a IH]; simpl; [reflexivity|].
  intros H. apply andb_true_iff in H. destruct H as [Hc Ha].
  now rewrite (Hsub c Hc), IH.
Qed.

Lemma string_length_append (a b : string) :
  String.length (a ++ b)%string = String.length a + String.length b.
Proof. induction a as [|c a IH]; simpl; [reflexivity | now rewrite IH]. Qed.

Lemma lstrip_split (chars s : string) :
  exists a, s = (a ++ lstrip chars s)%string /\ all_in chars a = true.
Proof.
  induction s as [|c s (a & Ha & Hin)]; simpl.
  - exists EmptyString. now split.
  - destruct (mem c chars) eqn:E.
    + exists (String c a). simpl. rewrite E, Hin. split; [now rewrite <- Ha | reflexivity].
    + exists EmptyString. now split.
Qed.

Lemma rstrip_split (chars s : string) :
  exists b, s = (rstrip chars s ++ b)%string /\ all_in chars b = true.
Proof.
  induction s as [|c s (b & Hb & Hin)]; simpl.
  - exists EmptyString. now split.
  - destruct (rstrip chars s) as [|d kept] eqn:E.
    + destruct (mem c chars) eqn:Ec.
      * exists (String c b). simpl in Hb. subst b. simpl. rewrite Ec, Hin. now split.
      * exists b. simpl in Hb. subst b. now split.
    + exists b. split; [|exact Hin]. simpl. f_equal. exact Hb.
Qed.

Lemma strip_split (chars s : string) :
  exists a b, s = (a ++ strip chars s ++ b)%string /\
              all_in chars a = true /\ all_in chars b = true.
Proof.
  destruct (lstrip_split chars s) as (a & Ha & Hina).
  destruct (rstrip_split chars (lstrip chars s)) as (b & Hb & Hinb).
  exists a, b. unfold strip. now rewrite <- Hb, <- Ha.
Qed.

Lemma rstrip_idempotent (chars s : string) :
  rstrip chars (rstrip chars s) = rstrip chars s.
Proof.
  induction s as [|c s IH]; simpl; [reflexivity|].
  destruct (rstrip chars s) as [|d kept] eqn:E.
  - destruct (mem c chars) eqn:Ec; simpl; [reflexivity | now rewrite Ec].
  - change (rstrip chars (String c (String d kept)))
      with (match rstrip chars (String d kept) with
            | EmptyString => if mem c chars then EmptyString else String c EmptyString
            | k => String c k
            end).
    now rewrite IH.
Qed.

Lemma lstrip_rstrip_fixed (chars y : string) :
  lstrip chars y = y -> lstrip chars (rstrip chars y) = rstrip chars y.
Proof.
  destruct y as [|c y]; [reflexivity|].
  intros H. assert (Hc : mem c chars = false).
  { simpl in H. destruct (mem c chars) eqn:E; [|reflexivity].
    exfalso. destruct (lstrip_split chars y) as (a & Ha & _).
    rewrite H in Ha. apply (f_equal String.length) in Ha.
    rewrite string_length_append in Ha. simpl in Ha. lia. }
  cbn [rstrip]. destruct (rstrip chars y) as [|d kept]; [rewrite Hc|];
    simpl; rewrite Hc; reflexivity.
Qed.

Lemma lstrip_idempotent (chars s : string) :
  lstrip chars (lstrip chars s) = lstrip chars s.
Proof.
  induction s as [|c s IH]; simpl; [reflexivity|].
  destruct (mem c chars) eqn:E; [exact IH|]. simpl. now rewrite E.
Qed.

(** X3.  [get_clear_type_name] only trims: its result sits inside the text it was
    given, between two runs of characters taken from [<class '>], and has
    neither a quote nor a closing bracket at either end. *)
Theorem get_clear_type_name_trims (raw : string) :
  (exists a b,
      raw = (a ++ get_clear_type_name raw ++ b)%string /\
      all_in "<class '>" a = true /\ all_in "<class '>" b = true) /\
  lstrip "'>" (get_clear_type_name raw) = get_clear_type_name raw /\
  rstrip "'>" (get_clear_type_name raw) = get_clear_type_name raw.
Proof.
  assert (S1 : forall c, mem c "<class " = true -> mem c "<class '>" = true).
  { intros c. simpl. intros H.
    repeat match goal with
           | |- context [Ascii.eqb c ?x] => destruct (Ascii.eqb c x)
           end; simpl in *; congruence. }
  assert (S2 : forall c, mem c "'" = true -> mem c "<class '>" = true).
  { intros c. simpl. intros H.
    repeat match goal with
           | |- context [Ascii.eqb c ?x] => destruct (Ascii.eqb c x)
           end; simpl in *; congruence. }
  assert (S3 : forall c, mem c "'>" = true -> mem c "<class '>" = true).
  { intros c. simpl. intros H.
    repeat match goal with
           | |- context [Ascii.eqb c ?x] => destruct (Ascii.eqb c x)
           end; simpl in *; congruence. }
  unfold get_clear_type_name. split; [|split].
  - destruct (strip_split "<class " raw) as (a1 & b1 & E1 & Ha1 & Hb1).
    destruct (strip_split "'" (strip "<class " raw)) as (a2 & b2 & E2 & Ha2 & Hb2).
    destruct (strip_split "'>" (strip "'" (strip "<class " raw)))
      as (a3 & b3 & E3 & Ha3 & Hb3).
    exists (a1 ++ a2 ++ a3)%string, (b3 ++ b2 ++ b1)%string.
    split; [|split].
    + rewrite E1 at 1. rewrite E2 at 1. rewrite E3 at 1.
      now rewrite !append_assoc.
    + rewrite !all_in_append.
      now rewrite (all_in_weaken _ _ _ S1 Ha1), (all_in_weaken _ _ _ S2 Ha2),
        (all_in_weaken _ _ _ S3 Ha3).
    + rewrite !all_in_append.
      now rewrite (all_in_weaken _ _ _ S1 Hb1), (all_in_weaken _ _ _ S2 Hb2),
        (all_in_weaken _ _ _ S3 Hb3).
  - unfold strip at 1. apply lstrip_rstrip_fixed, lstrip_idempotent.
  - unfold strip at 1. apply rstrip_idempotent.
Qed.

(** X2.  The text of a class, cleaned, is the name of the class again, for every
    class whose name has neither a quote nor a closing bracket at its ends;
    the builtin classes are among them. *)
Theorem class_name_round_trip (c : pyclass) :
  plain_name (class_name c) = true ->
  get_clear_type_name (str_class c) = class_name c /\
  get_clear_type_name (str_annotation (AClass c)) = class_name c /\
  shown_type c = class_name c.
Proof.
  intros H. pose proof (get_clear_type_name_class (class_name c) H) as E.
  repeat split; exact E.
Qed.

Lemma class_name_round_trip_witness :
  plain_name (class_name (C_user "__main__" "Point" C_object)) = true /\
  get_clear_type_name "<class '__main__.Point'>" = "__main__.Point".
Proof.
  split; [reflexivity|].
  exact (proj1 (class_name_round_trip (C_user "__main__" "Point" C_object) eq_refl)).
Defined.

(* ===================================================================== *)
(** ** What the description mentions *)
(* ===================================================================== *)

Lemma prefix_append_weaken (n a t : string) :
  String.prefix n a = true -> String.prefix n (a ++ t)%string = true.
Proof.
  revert a. induction n as [|c n IH]; intros a;
    [intros _; now destruct (a ++ t)%string|].
  destruct a as [|d a]; simpl; [discriminate|].
  destruct (ascii_dec c d); [apply IH | discriminate].
Qed.

Lemma contains_append_l (n a t : string) :
  contains n a = true -> contains n (a ++ t)%string = true.
Proof.
  induction a as [|d a IH].
  - rewrite contains_unfold, orb_false_r. intros H.
    rewrite contains_unfold. destruct n; [|discriminate]. simpl. now destruct t.
  - rewrite contains_unfold. intros H. apply orb_true_iff in H.
    change ((String d a ++ t)%string) with (String d (a ++ t)%string).
    rewrite contains_unfold. apply orb_true_iff. destruct H as [H|H].
    + left. exact (prefix_append_weaken _ (String d a) t H).
    + right. now apply IH.
Qed.

Lemma contains_join (sep x : string) (l : list string) :
  In x l -> contains x (join sep l) = true.
Proof.
  induction l as [|y l IH]; [contradiction|].
  intros [->|Hin].
  - destruct l; simpl; [apply contains_refl | apply contains_head].
  - destruct l as [|z l]; [contradiction|].
    change (join sep (y :: z :: l)) with (y ++ sep ++ join sep (z :: l))%string.
    now apply contains_skip, contains_skip, IH.
Qed.

Lemma contains_annotation_lines (n : string) (t : annotation)
      (entries : list (string * annotation)) :
  In (n, t) entries ->
  contains ("  " ++ n ++ ": " ++ get_clear_type_name (str_annotation t))
           (annotation_lines entries) = true.
Proof.
  induction entries as [|[m u] rest IH]; [contradiction|].
  intros [H|Hin].
  - inversion H; subst. cbn [annotation_lines].
    replace ("  " ++ n ++ ": " ++ get_clear_type_name (str_annotation t)
               ++ match rest with [] => endl | _ :: _ => ("," ++ endl)%string end
               ++ annotation_lines rest)%string
      with (("  " ++ n ++ ": " ++ get_clear_type_name (str_annotation t))
              ++ match rest with [] => endl | _ :: _ => ("," ++ endl)%string end
              ++ annotation_lines rest)%string
      by (now rewrite !append_assoc).
    apply contains_head.
  - cbn [annotation_lines]. now apply contains_skip, contains_skip, contains_skip,
      contains_skip, contains_skip, IH.
Qed.

Ltac find_in :=
  lazymatch goal with
  | |- contains ?x ?x = true => apply contains_refl
  | |- contains ?x (?x ++ _)%string = true => apply contains_head
  | |- contains ?x (join _ _) = true => apply contains_join
  | |- contains ?x (?a ++ ?t)%string = true =>
      first [ apply contains_skip; find_in | apply contains_append_l; find_in ]
  end.

(** X14.  The description names the function, carries the description the function
    had (or the placeholder), and has an entry for every parameter of the
    signature and a line for every entry of the annotation map. *)
Theorem description_mentions_everything (func : pyfunction) :
  contains (f_name func) (synthesized_doc func) = true /\
  contains (original_description func) (synthesized_doc func) = true /\
  (forall p, In p (f_parameters func) ->
             contains (get_clear_argument_signature p) (synthesized_doc func) = true) /\
  (forall n t, In (n, t) (f_annotations func) ->
               contains ("  " ++ n ++ ": " ++ get_clear_type_name (str_annotation t))
                        (synthesized_doc func) = true).
Proof.
  unfold synthesized_doc.
  change (List.length (f_annotations func)) with (0 + List.length (f_annotations func)).
  rewrite (doc_entries_lines (f_annotations func) 0 (doc_header func)).
  unfold doc_header, function_signature, function_param_signature.
  fold (original_description func).
  split; [|split; [|split]].
  - find_in.
  - find_in.
  - intros p Hp. find_in. now apply in_map.
  - intros n t Hin. apply contains_skip. now apply contains_annotation_lines.
Qed.

Lemma description_mentions_everything_witness :
  In ("b", AClass C_int) (f_annotations Samples.add_int) /\
  contains "  b: int" (synthesized_doc Samples.add_int) = true.
Proof.
  assert (Hin : In ("b", AClass C_int) (f_annotations Samples.add_int))
    by (simpl; auto).
  split; [exact Hin|].
  exact (proj2 (proj2 (proj2 (description_mentions_everything Samples.add_int))) "b"
           (AClass C_int) Hin).
Defined.

(* ===================================================================== *)
(** ** Decorating twice *)
(* ===================================================================== *)

(** X15.  Decorating a function that is already decorated changes no outcome: the
    second wrapper validates against the same annotations and signature, and
    then runs the first.  Its description embeds the first description as the
    original one. *)
Theorem decorating_twice
        (func : pyfunction) (w w2 : wrapper) :
  typecheck (OFunction func) = Return w ->
  typecheck (OFunction (as_function w)) = Return w2 ->
  (forall args kwargs, w_call w2 args kwargs = w_call w args kwargs) /\
  w_name w2 = f_name func /\
  original_description (as_function w) = synthesized_doc func /\
  w_doc w2 = Some (synthesized_doc (as_function w)).
Proof.
  intros Hw Hw2. inversion Hw; subst w. inversion Hw2; subst w2. clear Hw Hw2.
  split; [|repeat split].
  intros args kwargs. cbn [w_call].
  change (check_type (documented (as_function _)) args kwargs)
    with (validate func args kwargs ;; (validate func args kwargs ;; f_call func args kwargs)).
  change (check_type (documented func) args kwargs)
    with (validate func args kwargs ;; f_call func args kwargs).
  destruct (validate func args kwargs) as [[]|e]; reflexivity.
Qed.

Lemma decorating_twice_witness :
  exists w w2,
    typecheck (OFunction Samples.add_int) = Return w /\
    typecheck (OFunction (as_function w)) = Return w2 /\
    w_call w2 [VInt 1; VInt 2] [] = Return (VInt 3) /\
    w_call w2 [VInt 1; VStr "2"] []
    = Raise (PositionalTypeMismatchError 1 "b" (AClass C_int) C_str).
Proof.
  eexists. eexists. split; [reflexivity|]. split; [reflexivity|].
  split.
  - rewrite (proj1 (@decorating_twice Samples.add_int _ _ eq_refl eq_refl)). reflexivity.
  - rewrite (proj1 (@decorating_twice Samples.add_int _ _ eq_refl eq_refl)). reflexivity.
Defined.

(* ===================================================================== *)
(** ** The dispatching script *)
(* ===================================================================== *)

Import TestScript.

Lemma find_impl_script (c : pyclass) (for_str for_int generic : implementation) :
  find_impl (mro c) [(C_str, for_str); (C_int, for_int); (C_object, generic)]
  = Some (if issubclass c C_int then for_int
          else if issubclass c C_str then for_str
          else generic).
Proof.
  induction c; try reflexivity.
  change (mro (C_user module_ qualname c)) with (C_user module_ qualname c :: mro c).
  cbn [find_impl registry_get class_eqb]. rewrite IHc.
  unfold issubclass.
  change (mro (C_user module_ qualname c)) with (C_user module_ qualname c :: mro c).
  cbn [existsb class_eqb orb]. reflexivity.
Qed.

(** X16.  The dispatcher of the script, decorated, with the two decorated
    implementations registered.  The class of the first argument picks the
    implementation along its MRO, and that implementation checks both
    arguments exactly: a first argument that is an [int], a [bool] included,
    is handed to the [int] implementation, a [str] to the [str] one, and
    anything else falls through to the undecorated body, which returns
    [None].  Mixed arguments such as [("string", 1)] are an error. *)
Theorem dispatch_checks_both_arguments (a b : pyvalue) :
  (issubclass (type_of a) C_int = true ->
   add_with_type_check [a; b] [] = check_type Samples.add_int [a; b] []) /\
  (issubclass (type_of a) C_int = false -> issubclass (type_of a) C_str = true ->
   add_with_type_check [a; b] [] = check_type add_str [a; b] []) /\
  (issubclass (type_of a) C_int = false -> issubclass (type_of a) C_str = false ->
   add_with_type_check [a; b] [] = Return VNone) /\
  (forall x y, add_with_type_check [VInt x; VInt y] [] = Return (VInt (x + y))) /\
  (forall s t, add_with_type_check [VStr s; VStr t] [] = Return (VStr (s ++ t))) /\
  (forall s y, add_with_type_check [VStr s; VInt y] []
               = Raise (PositionalTypeMismatchError 1 "b" (AClass C_str) C_int)) /\
  (forall x t, add_with_type_check [VInt x; VStr t] []
               = Raise (PositionalTypeMismatchError 1 "b" (AClass C_int) C_str)) /\
  (forall flag, add_with_type_check [VBool flag; b] []
                = Raise (PositionalTypeMismatchError 0 "a" (AClass C_int) C_bool)) /\
  add_with_type_check [] []
  = Raise (TypeError "add_with_type_check requires at least 1 positional argument").
Proof.
  assert (E : add_with_type_check [a; b] []
              = match find_impl (mro (type_of a))
                        [(C_str, check_type add_str); (C_int, check_type Samples.add_int);
                         (C_object, f_call add_with_type_check_generic)] with
                | Some impl => impl [a; b] []
                | None => f_call add_with_type_check_generic [a; b] []
                end) by reflexivity.
  rewrite find_impl_script in E.
  split; [|split; [|split]].
  - intros H. now rewrite E, H.
  - intros H1 H2. now rewrite E, H1, H2.
  - intros H1 H2. now rewrite E, H1, H2.
  - repeat split.
Qed.

Lemma dispatch_checks_both_arguments_witness :
  issubclass (type_of (VObject (C_user "__main__" "Count" C_int) "3")) C_int = true /\
  add_with_type_check [VObject (C_user "__main__" "Count" C_int) "3"; VInt 1] []
  = Raise (PositionalTypeMismatchError 0 "a" (AClass C_int) (C_user "__main__" "Count" C_int)).
Proof.
  split; [reflexivity|].
  rewrite (proj1 (dispatch_checks_both_arguments
                    (VObject (C_user "__main__" "Count" C_int) "3") (VInt 1)) eq_refl).
  reflexivity.
Defined.
